(** * Projector: the control server of [server.py], embedded and verified

    [server.py] supervises one external capture process (ffmpeg), serves the
    segment files that process writes, and answers a small JSON API.  This
    file embeds the module function by function and proves the properties its
    specification states about it.

    Modelling conventions.
    - Python text and bytes are [string] (a list of 8-bit characters).  A
      request path and a header hold one character per byte, as
      [http.server] decodes them; a source literal outside ASCII is held as
      its UTF-8; other text (a source id, the error output of the process)
      is taken to be of code points below 256, one character each.
    - The module's only mutable global, [_ffmpeg_proc], is the [state].
    - Every call that leaves the interpreter (the OS, the network, the file
      system, [json], [str] of a non-string) is answered by a [World]: one
      record of answers per handled request.  The theorems quantify over all
      worlds; the examples fix one.
    - Effects are recorded, in order, as a list of [event]s.
    - A Python exception is [Raise]; the state and the events at the point
      of the raise are kept, as a global assignment survives a raise.  The
      exceptions modelled are those an [except] clause of the module names,
      those a client's request decides (of [int], of [rfile.read], of
      [json.loads], of a method call on the decoded value, of [open], of
      [Popen] on the source id) and those of the host at a launch.
    - The host decides whether the segment directory can be recreated and
      ffmpeg executed: [shutil.rmtree], [os.makedirs] and
      [subprocess.Popen] return or raise as the world says, and [Popen]
      raises [ValueError] on an argument that holds NUL.  So does the buffer
      of a read above [SMALL_READ] bytes; a smaller one is taken to be had.
      [terminate] and [kill] on the module's own child return, and so does
      the listing run of [list_screens].
    - Requests are handled one at a time, each to its end, and a signal
      arrives between two requests.  The handler takes the device list from
      the world as the list [list_screens] returns; the parsing that builds
      that list from the listing text is embedded in [Devices].  *)

From Stdlib Require Import String Ascii List ZArith Lia Bool DecimalString.
Import ListNotations.
Local Open Scope string_scope.
Local Open Scope Z_scope.

(** ** Python strings *)

Module Py.

(** [s.startswith(p)] *)
Fixpoint startswith (p s : string) : bool :=
  match p, s with
  | EmptyString, _ => true
  | String a p', String b s' => Ascii.eqb a b && startswith p' s'
  | String _ _, EmptyString => false
  end.

(** [needle in hay] *)
Fixpoint contains (needle hay : string) : bool :=
  startswith needle hay ||
  match hay with
  | EmptyString => false
  | String _ hay' => contains needle hay'
  end.

(** [s[n:]] for a literal [n >= 0] *)
Fixpoint drop (n : nat) (s : string) : string :=
  match n, s with
  | O, _ => s
  | S _, EmptyString => EmptyString
  | S n', String _ s' => drop n' s'
  end.

(** [s[-n:]] for a literal [n > 0] *)
Definition last_n (n : nat) (s : string) : string :=
  drop (String.length s - n) s.

(** [s.endswith(p)] *)
Definition endswith (p s : string) : bool :=
  (String.length p <=? String.length s)%nat &&
  String.eqb (drop (String.length s - String.length p) s) p.

(** [str(n)] for an [int] *)
Definition str_int (z : Z) : string := NilZero.string_of_int (Z.to_int z).

(** [len(s)] *)
Definition len (s : string) : Z := Z.of_nat (String.length s).

(** [s.lower()] on the ASCII letters *)
Definition lower_char (c : ascii) : ascii :=
  let n := nat_of_ascii c in
  if ((65 <=? n) && (n <=? 90))%nat then ascii_of_nat (n + 32) else c.

Fixpoint lower (s : string) : string :=
  match s with
  | EmptyString => EmptyString
  | String c s' => String (lower_char c) (lower s')
  end.

(** The characters [int] takes as white space around a literal, among the
    first 256 code points: TAB to CR, the space, NEL and the no-break
    space. *)
Definition isspace (c : ascii) : bool :=
  let n := nat_of_ascii c in
  ((9 <=? n) && (n <=? 13) || (n =? 32) || (n =? 133) || (n =? 160))%nat.

Fixpoint lstrip (s : string) : string :=
  match s with
  | String c s' => if isspace c then lstrip s' else s
  | EmptyString => EmptyString
  end.

Fixpoint rev_string (acc s : string) : string :=
  match s with
  | EmptyString => acc
  | String c s' => rev_string (String c acc) s'
  end.

Definition strip (s : string) : string :=
  rev_string "" (lstrip (rev_string "" (lstrip s))).

Definition digit_val (c : ascii) : option Z :=
  let n := nat_of_ascii c in
  if ((48 <=? n) && (n <=? 57))%nat then Some (Z.of_nat (n - 48)) else None.

(** The digits of a decimal literal after its first digit: digits, each
    optionally preceded by one underscore. *)
Fixpoint int_digits (acc : Z) (s : string) : option Z :=
  match s with
  | EmptyString => Some acc
  | String c s' =>
      match digit_val c with
      | Some d => int_digits (10 * acc + d) s'
      | None =>
          if Ascii.eqb c "_" then
            match s' with
            | String c' s'' =>
                match digit_val c' with
                | Some d => int_digits (10 * acc + d) s''
                | None => None
                end
            | EmptyString => None
            end
          else None
      end
  end.

Definition int_unsigned (s : string) : option Z :=
  match s with
  | String c s' =>
      match digit_val c with
      | Some d => int_digits d s'
      | None => None
      end
  | EmptyString => None
  end.

(** [int(s)] for a [str] in base 10: [None] is [ValueError].  White space
    around, one optional sign, digits with single underscores between
    them.  (The interpreter's limit on the number of digits is left out.) *)
Definition int_of_str (s : string) : option Z :=
  match strip s with
  | String "+" s' => int_unsigned s'
  | String "-" s' => option_map Z.opp (int_unsigned s')
  | s' => int_unsigned s'
  end.

(** [s.rfind(c)] for a one-character [c]: the last index, or -1 *)
Fixpoint rfind_from (c : ascii) (i : Z) (found : Z) (s : string) : Z :=
  match s with
  | EmptyString => found
  | String a s' => rfind_from c (i + 1) (if Ascii.eqb a c then i else found) s'
  end.

Definition rfind (c : ascii) (s : string) : Z := rfind_from c 0 (-1) s.

(** [any(ch != c for ch in s)] *)
Fixpoint any_other (c : ascii) (s : string) : bool :=
  match s with
  | EmptyString => false
  | String a s' => negb (Ascii.eqb a c) || any_other c s'
  end.

(** [os.path.splitext(p)[1]] on POSIX: from the last dot of the last path
    component on, unless only dots precede it in that component. *)
Definition splitext_ext (p : string) : string :=
  let sepIndex := rfind "/" p in
  let dotIndex := rfind "." p in
  if sepIndex <? dotIndex then
    if any_other "." (substring (Z.to_nat (sepIndex + 1))
                                (Z.to_nat (dotIndex - (sepIndex + 1))) p)
    then drop (Z.to_nat dotIndex) p
    else ""
  else "".

(** [s] holds the character NUL. *)
Fixpoint has_nul (s : string) : bool :=
  match s with
  | EmptyString => false
  | String c s' => Ascii.eqb c zero || has_nul s'
  end.

(** [os.path.join(a, b)] on POSIX *)
Definition path_join (a b : string) : string :=
  if startswith "/" b then b
  else if String.eqb a "" || endswith "/" a then a ++ b
  else a ++ "/" ++ b.

End Py.


(** ** Values, exceptions and the world *)

(** The Python values [json.loads] builds and [json.dumps] takes.  A float is
    kept as its literal; a [dict] is its items, in order, keys distinct. *)
#[warnings="-register-all"]
Inductive pyval : Type :=
| PNone
| PBool (b : bool)
| PInt (z : Z)
| PFloat (literal : string)
| PStr (s : string)
| PList (items : list pyval)
| PDict (items : list (string * pyval)).

(** The exception classes the module can meet. *)
Inductive exn : Type :=
| ValueError
| JSONDecodeError
| UnicodeDecodeError
| RecursionError
| AttributeError
| FileNotFoundError
| IsADirectoryError
| NotADirectoryError
| PermissionError
| OSError
| OverflowError
| MemoryError
| TimeoutExpired.

(** What a call gives back: a value, or a raised exception. *)
Inductive result (A : Type) : Type :=
| Ret (a : A)
| Raise (e : exn).
Arguments Ret {A} a.
Arguments Raise {A} e.

(** An OS process id: what identifies a [Popen] object. *)
Definition pid := Z.

(** The calls the module makes outside the interpreter, as it makes them. *)
Inductive event : Type :=
| EExists (path : string)                 (* os.path.exists(path) *)
| ERmtree (path : string)                 (* shutil.rmtree(path) *)
| EMakedirs (path : string)               (* os.makedirs(path) *)
| EPopen (argv : list string) (p : pid)   (* subprocess.Popen(argv, ...), which returned process p *)
| ESleep (milliseconds : Z)               (* time.sleep(ms / 1000) *)
| EPoll (p : pid) (code : option Z)       (* proc.poll(), and what it returned *)
| EReadStderr (p : pid)                   (* proc.stderr.read() *)
| ETerminate (p : pid)                    (* proc.terminate() *)
| ECommunicate (p : pid) (timeout : Z)    (* proc.communicate(timeout=..) *)
| EKill (p : pid)                         (* proc.kill() *)
| EWait (p : pid) (timeout : Z)           (* proc.wait(timeout=..) *)
| EPrint (text : string)                  (* print(text) *)
| EConnect (host : string) (port : Z)     (* the UDP socket of get_local_ip *)
| EOpen (path : string)                   (* open(path, "rb") *)
| EListDevices.                           (* subprocess.run(ffmpeg -list_devices) *)

(** The answers of everything outside the module while one call runs. *)
Record World : Type := {
  (* the file system *)
  hls_dir_exists : bool;             (* os.path.exists(HLS_DIR) in prepare_hls_dir *)
  rmtree_error : option exn;         (* what shutil.rmtree(HLS_DIR) raises, if anything *)
  makedirs_error : option exn;       (* what os.makedirs(HLS_DIR) raises, if anything *)
  fs_open : string -> result string; (* open(path, "rb") and f.read() *)
  read_fault : Z -> option exn;      (* what making the buffer of a large rfile.read(n)
                                        raises, if anything *)
  (* the launched process, as the poll of start_stream observes it *)
  popen_error : list string -> option exn;
                                     (* what Popen(argv) raises on this host for an argv
                                        without NUL: FileNotFoundError where there is
                                        no ffmpeg, ... *)
  spawn_pid : pid;                   (* the process Popen creates when it returns *)
  poll_at : nat -> option Z;         (* proc.poll() in iteration i: the return code *)
  manifest_at : nat -> bool;         (* os.path.exists(stream.m3u8) in iteration i *)
  stderr_text : string;              (* proc.stderr.read().decode(errors="replace") *)
  communicate_stderr : result string;(* communicate(timeout=3)[1].decode(errors="replace") *)
  wait_code : result Z;              (* proc.wait(timeout=2) *)
  (* the network *)
  probe_ip : result string;          (* connect to 8.8.8.8:80, then getsockname()[0] *)
  (* device listing, already parsed by list_screens *)
  screens : list pyval;
  (* the library *)
  json_loads : string -> result pyval;
  json_dumps : pyval -> string;      (* json.dumps(v).encode() *)
  str_of : pyval -> string;          (* str(v) for a value that is no str *)
  server_header : string;            (* BaseHTTPRequestHandler.version_string() *)
  date_header : string;              (* BaseHTTPRequestHandler.date_time_string() *)
  error_page : Z -> string;          (* the body send_error builds for a status *)
  (* the installation *)
  STATIC_DIR : string                (* os.path.dirname(os.path.abspath(__file__)) *)
}.

(** [_ffmpeg_proc]: [None], or the [Popen] object of the capture process. *)
Record state : Type := { ffmpeg_proc : option pid }.

Definition idle : state := {| ffmpeg_proc := None |}.
Definition running (p : pid) : state := {| ffmpeg_proc := Some p |}.

(** ** The monad of the module's code: global state, events, exceptions *)

Definition M (A : Type) : Type := state -> result A * state * list event.

Definition ret {A} (a : A) : M A := fun s => (Ret a, s, []).

Definition bind {A B} (m : M A) (f : A -> M B) : M B :=
  fun s =>
    match m s with
    | (Ret a, s1, t1) =>
        match f a s1 with
        | (r, s2, t2) => (r, s2, (t1 ++ t2)%list)
        end
    | (Raise e, s1, t1) => (Raise e, s1, t1)
    end.

Definition raise {A} (e : exn) : M A := fun s => (Raise e, s, []).

(** [try: m  except <classes>: handler] *)
Definition try_except {A} (m : M A) (catches : exn -> bool) (handler : M A) : M A :=
  fun s =>
    match m s with
    | (Raise e, s1, t1) =>
        if catches e then
          match handler s1 with
          | (r, s2, t2) => (r, s2, (t1 ++ t2)%list)
          end
        else (Raise e, s1, t1)
    | done => done
    end.

Definition emit (e : event) : M unit := fun s => (Ret tt, s, [e]).
Definition get_proc : M (option pid) := fun s => (Ret (ffmpeg_proc s), s, []).
Definition set_proc (p : option pid) : M unit :=
  fun _ => (Ret tt, {| ffmpeg_proc := p |}, []).
Definition lift {A} (r : result A) : M A := fun s => (r, s, []).

Declare Scope py_scope.
Delimit Scope py_scope with py.
Notation "x <- m ;; k" := (bind m (fun x => k))
  (at level 61, m at next level, right associativity) : py_scope.
Notation "m ;; k" := (bind m (fun _ => k))
  (at level 61, right associativity) : py_scope.
Local Open Scope py_scope.

(** [except Exception] and the two named handlers of the module. *)
Definition any_exception (_ : exn) : bool := true.
Definition is_JSONDecodeError (e : exn) : bool :=
  match e with JSONDecodeError => true | _ => false end.
Definition is_FileNotFoundError (e : exn) : bool :=
  match e with FileNotFoundError => true | _ => false end.

(** The result, final state and events of a run. *)
Definition value_of {A} (r : result A * state * list event) : result A := fst (fst r).
Definition state_of {A} (r : result A * state * list event) : state := snd (fst r).
Definition trace_of {A} (r : result A * state * list event) : list event := snd r.

(** ** Module constants *)

Definition CONTROL_PORT : Z := 8000.
Definition HLS_DIR : string := "/tmp/projector-stream".

Definition newline : string := String (ascii_of_nat 10) "".

Definition MSG_ALREADY_RUNNING : string := "Already running".
Definition MSG_STARTED : string := "Started".
Definition MSG_PERMISSION_HINT : string :=
  "Failed — grant Screen Recording permission to your terminal in System Settings.".
Definition MSG_NO_SEGMENTS : string :=
  "No segments generated — check screen recording permissions in System Settings.".

(** The number of iterations and the sleep of the poll in [start_stream]:
    [range(40)] and [time.sleep(0.25)]. *)
Definition POLL_ITERATIONS : nat := 40.
Definition POLL_SLEEP_MS : Z := 250.

Definition MIME_TYPES : list (string * string) :=
  [ (".html", "text/html");
    (".m3u8", "application/vnd.apple.mpegurl");
    (".ts", "video/mp2t");
    (".js", "application/javascript") ].

(** [d.get(key, default)] for a dict of string keys *)
Fixpoint dict_get {V} (d : list (string * V)) (key : string) (default : V) : V :=
  match d with
  | [] => default
  | (k, v) :: d' => if String.eqb k key then v else dict_get d' key default
  end.

(** ** The process supervisor *)

Section Supervisor.

Variable w : World.

(** [_ffmpeg_proc.<method>]: the global read at a method call;
    on [None] the attribute access raises. *)
Definition proc_object : M pid :=
  p <- get_proc ;;
  match p with
  | Some q => ret q
  | None => raise AttributeError
  end.

Definition get_local_ip : M string :=
  try_except
    (emit (EConnect "8.8.8.8" 80) ;;
     lift (probe_ip w))
    any_exception
    (ret "127.0.0.1").

Definition list_screens : M (list pyval) :=
  emit EListDevices ;;
  ret (screens w).

(** A call that is made, and then returns or raises. *)
Definition call (e : event) (error : option exn) : M unit :=
  emit e ;;
  match error with
  | Some x => raise x
  | None => ret tt
  end.

Definition prepare_hls_dir : M unit :=
  emit (EExists HLS_DIR) ;;
  (if hls_dir_exists w then call (ERmtree HLS_DIR) (rmtree_error w) else ret tt) ;;
  call (EMakedirs HLS_DIR) (makedirs_error w).

(** [subprocess.Popen(argv, stdout=PIPE, stderr=PIPE)]: [ValueError] for an
    argument that holds NUL, before anything is executed; else what the host
    says; the process, when there is one. *)
Definition popen (argv : list string) : M pid :=
  if existsb Py.has_nul argv then raise ValueError
  else match popen_error w argv with
       | Some e => raise e
       | None =>
           emit (EPopen argv (spawn_pid w)) ;;
           ret (spawn_pid w)
       end.

(** [f"{v}"]: a [str] is itself, any other value goes through [str]. *)
Definition format_value (v : pyval) : string :=
  match v with
  | PStr s => s
  | other => str_of w other
  end.

(** The argument vector [start_stream] hands to [Popen]. *)
Definition ffmpeg_argv (source_id : pyval) (framerate : Z) : list string :=
  [ "ffmpeg";
    "-f"; "avfoundation";
    "-framerate"; Py.str_int framerate;
    "-capture_cursor"; "1";
    "-i"; format_value source_id ++ ":none";
    "-enc_time_base"; "1/" ++ Py.str_int framerate;
    "-c:v"; "h264_videotoolbox";
    "-b:v"; "3M";
    "-g"; Py.str_int framerate;
    "-f"; "hls";
    "-hls_time"; "1";
    "-hls_list_size"; "3";
    "-hls_flags"; "delete_segments+independent_segments";
    "-hls_segment_filename"; Py.path_join HLS_DIR "seg%03d.ts";
    Py.path_join HLS_DIR "stream.m3u8" ].

(** The [for _ in range(40)] loop of [start_stream], with [n] iterations
    left and [i] done: [Some r] when the body returns [r], [None] when the
    range is exhausted. *)
Fixpoint wait_first_segment (n i : nat) : M (option (bool * string)) :=
  match n with
  | O => ret None
  | S n' =>
      emit (ESleep POLL_SLEEP_MS) ;;
      p <- proc_object ;;
      emit (EPoll p (poll_at w i)) ;;
      match poll_at w i with
      | Some _ =>
          q <- proc_object ;;
          emit (EReadStderr q) ;;
          set_proc None ;;
          emit (EPrint ("ffmpeg exited early. stderr:" ++ newline
                        ++ Py.last_n 500 (stderr_text w))) ;;
          ret (Some (false, MSG_PERMISSION_HINT))
      | None =>
          emit (EExists (Py.path_join HLS_DIR "stream.m3u8")) ;;
          if manifest_at w i then ret (Some (true, MSG_STARTED))
          else wait_first_segment n' (S i)
      end
  end.

(** The code of [start_stream] after the loop. *)
Definition no_segments_exit : M (bool * string) :=
  err <- try_except
           (p <- proc_object ;;
            emit (ETerminate p) ;;
            q <- proc_object ;;
            emit (ECommunicate q 3) ;;
            out <- lift (communicate_stderr w) ;;
            ret (Py.last_n 500 out))
           any_exception
           (p <- proc_object ;;
            emit (EKill p) ;;
            ret "") ;;
  set_proc None ;;
  emit (EPrint ("ffmpeg produced no segments. stderr:" ++ newline ++ err)) ;;
  ret (false, MSG_NO_SEGMENTS).

Definition start_stream (source_id : pyval) (framerate : Z) : M (bool * string) :=
  p <- get_proc ;;
  match p with
  | Some _ => ret (true, MSG_ALREADY_RUNNING)
  | None =>
      prepare_hls_dir ;;
      proc <- popen (ffmpeg_argv source_id framerate) ;;
      set_proc (Some proc) ;;
      r <- wait_first_segment POLL_ITERATIONS 0 ;;
      match r with
      | Some res => ret res
      | None => no_segments_exit
      end
  end.

Definition stop_stream : M unit :=
  p <- get_proc ;;
  match p with
  | Some _ =>
      q <- proc_object ;;
      emit (EKill q) ;;
      try_except
        (q' <- proc_object ;;
         emit (EWait q' 2) ;;
         _ <- lift (wait_code w) ;;
         ret tt)
        any_exception
        (ret tt)
  | None => ret tt
  end ;;
  set_proc None.

End Supervisor.

(** ** The HTTP handler *)

(** What the handler reads of a request: the path of the request line, the
    headers as parsed, and the bytes the client sends after them. *)
Record request : Type := {
  req_path : string;
  req_headers : list (string * string);
  req_rfile : string
}.

(** What the handler writes: the status of [send_response], the headers in
    the order sent, and the body written to [wfile]. *)
Record response : Type := {
  status : Z;
  headers : list (string * string);
  body : string
}.

(** [self.headers.get(name)]: header names compare without case, the first
    match wins. *)
Fixpoint headers_get (hs : list (string * string)) (name : string) : option string :=
  match hs with
  | [] => None
  | (k, v) :: hs' =>
      if String.eqb (Py.lower k) (Py.lower name) then Some v
      else headers_get hs' name
  end.

(** The size up to which every host is taken to give a read its buffer. *)
Definition SMALL_READ : Z := 65536.

(** [self.rfile.read(n)] on the buffered reader of the connection, for a
    client that sends [stream] and closes.  [OverflowError] for an [n] that
    is no [Py_ssize_t] (of 64 bits); [ValueError] below -1; everything for
    -1.  Else the reader first makes a [bytes] of [n] bytes: none exists
    above [2^63 - 34] ([OverflowError]), and above [SMALL_READ] the host may
    refuse it ([MemoryError]); then it returns [n] bytes at most. *)
Definition rfile_read (w : World) (stream : string) (n : Z) : result string :=
  if (n <? - 2 ^ 63) || (2 ^ 63 - 1 <? n) then Raise OverflowError
  else if n <? -1 then Raise ValueError
  else if n =? -1 then Ret stream
  else if 2 ^ 63 - 34 <? n then Raise OverflowError
  else match (if SMALL_READ <? n then read_fault w n else None) with
       | Some e => Raise e
       | None => Ret (substring 0 (Z.to_nat n) stream)
       end.

(** [data.get(key, default)]: only a [dict] has the method. *)
Definition method_get (data : pyval) (key : string) (default : pyval) : result pyval :=
  match data with
  | PDict items => Ret (dict_get items key default)
  | _ => Raise AttributeError
  end.

Definition PLACEHOLDER_PAGE : string :=
  "<html><body style='font-family:sans-serif;display:flex;align-items:center;justify-content:center;height:100vh;margin:0;background:#0a0a0a;color:#888'><p>Screen sharing is not active yet. Ask the presenter to start sharing.</p></body></html>".

Section Handler.

Variable w : World.

(** The headers [send_response] buffers before any [send_header]. *)
Definition response_start : list (string * string) :=
  [ ("Server", server_header w); ("Date", date_header w) ].

(** [self.send_error(code)] of [BaseHTTPRequestHandler], for a status
    that carries a body. *)
Definition send_error (code : Z) : M response :=
  ret {| status := code;
         headers := response_start ++
           [ ("Connection", "close");
             ("Content-Type", "text/html;charset=utf-8");
             ("Content-Length", Py.str_int (Py.len (error_page w code))) ];
         body := error_page w code |}.

Definition serve_file (filepath content_type : string) (cache : bool) : M response :=
  try_except
    (emit (EOpen filepath) ;;
     content <- lift (fs_open w filepath) ;;
     ret {| status := 200;
            headers := response_start ++
              [ ("Content-Type", content_type);
                ("Content-Length", Py.str_int (Py.len content));
                ("Cache-Control",
                 if cache then "max-age=60"
                 else "no-cache, no-store, must-revalidate");
                ("Access-Control-Allow-Origin", "*") ];
            body := content |})
    is_FileNotFoundError
    (send_error 404).

Definition send_json (data : pyval) : M response :=
  let encoded := json_dumps w data in
  ret {| status := 200;
         headers := response_start ++
           [ ("Content-Type", "application/json");
             ("Content-Length", Py.str_int (Py.len encoded)) ];
         body := encoded |}.

(** [f"http://{ip}:{CONTROL_PORT}"] *)
Definition viewer_url (ip : string) : string :=
  "http://" ++ ip ++ ":" ++ Py.str_int CONTROL_PORT.

Definition do_GET (req : request) : M response :=
  let path := req_path req in
  if String.eqb path "/project" then
    serve_file (Py.path_join (STATIC_DIR w) "control.html") "text/html" false
  else if String.eqb path "/" || String.eqb path "/index.html" then
    p <- get_proc ;;
    match p with
    | Some _ =>
        serve_file (Py.path_join (STATIC_DIR w) "viewer.html") "text/html" false
    | None =>
        ret {| status := 200;
               headers := response_start ++
                 [ ("Content-Type", "text/html");
                   ("Content-Length", Py.str_int (Py.len PLACEHOLDER_PAGE)) ];
               body := PLACEHOLDER_PAGE |}
    end
  else if Py.startswith "/hls/" path then
    let filename := Py.drop 5 path in
    if Py.contains ".." filename || Py.contains "/" filename then
      send_error 403
    else
      let filepath := Py.path_join HLS_DIR filename in
      let ext := Py.splitext_ext filename in
      let content_type := dict_get MIME_TYPES ext "application/octet-stream" in
      serve_file filepath content_type (String.eqb ext ".ts")
  else if String.eqb path "/api/status" then
    ip <- get_local_ip w ;;
    p <- get_proc ;;
    p' <- get_proc ;;
    send_json (PDict
      [ ("running", PBool (match p with Some _ => true | None => false end));
        ("ip", PStr ip);
        ("viewer_url",
         match p' with Some _ => PStr (viewer_url ip) | None => PNone end) ])
  else if String.eqb path "/api/sources" then
    found <- list_screens w ;;
    send_json (PDict [ ("screens", PList found) ])
  else
    send_error 404.

(** Lines 166 to 171 of [do_POST]: the JSON value of the request body. *)
Definition request_data (req : request) : M pyval :=
  content_len <-
    match headers_get (req_headers req) "Content-Length" with
    | Some text =>
        match Py.int_of_str text with
        | Some n => ret n
        | None => raise ValueError
        end
    | None => ret 0
    end ;;
  body <- (if content_len =? 0 then ret ""
           else lift (rfile_read w (req_rfile req) content_len)) ;;
  try_except
    (if String.eqb body "" then ret (PDict [])
     else lift (json_loads w body))
    is_JSONDecodeError
    (ret (PDict [])).

Definition do_POST (req : request) : M response :=
  let path := req_path req in
  if String.eqb path "/api/start" then
    data <- request_data req ;;
    source_id <- lift (method_get data "id" (PStr "3")) ;;
    started <- start_stream w source_id 30 ;;
    let (ok, msg) := started in
    ip <- get_local_ip w ;;
    send_json (PDict
      [ ("ok", PBool ok);
        ("message", PStr msg);
        ("url", if ok then PStr (viewer_url ip) else PNone);
        ("ip", PStr ip) ])
  else if String.eqb path "/api/stop" then
    stop_stream w ;;
    send_json (PDict [ ("ok", PBool true); ("message", PStr "Stopped") ])
  else
    send_error 404.

End Handler.

(** The two methods the handler defines; [http.server] answers any other
    method itself. *)
Inductive method : Type := GET | POST.

Definition handle (w : World) (m : method) (req : request) : M response :=
  match m with
  | GET => do_GET w req
  | POST => do_POST w req
  end.

(** The server over a sequence of requests, each handled to its end in its
    own world: the state after, and the results and events in order.  A
    request whose handler raises gets no response; the server goes on. *)
Fixpoint serve (reqs : list (World * method * request)) (s : state)
  : state * list (result response * list event) :=
  match reqs with
  | [] => (s, [])
  | (w, m, req) :: rest =>
      match handle w m req s with
      | (r, s1, t) =>
          let (s2, out) := serve rest s1 in
          (s2, (r, t) :: out)
      end
  end.

(** ** Concrete worlds and requests *)

Module Sample.

Definition quote : string := String (ascii_of_nat 34) "".

(** An encoder for the examples: the text of [json.dumps] on values whose
    strings need no escape. *)
Fixpoint dumps (v : pyval) : string :=
  match v with
  | PNone => "null"
  | PBool true => "true"
  | PBool false => "false"
  | PInt z => Py.str_int z
  | PFloat literal => literal
  | PStr s => quote ++ s ++ quote
  | PList items =>
      "[" ++ (fix go (l : list pyval) : string :=
                match l with
                | [] => ""
                | [x] => dumps x
                | x :: rest => dumps x ++ ", " ++ go rest
                end) items ++ "]"
  | PDict items =>
      "{" ++ (fix go (l : list (string * pyval)) : string :=
                match l with
                | [] => ""
                | [(k, x)] => quote ++ k ++ quote ++ ": " ++ dumps x
                | (k, x) :: rest =>
                    quote ++ k ++ quote ++ ": " ++ dumps x ++ ", " ++ go rest
                end) items ++ "}"
  end.

(** A source id that holds NUL, and the body that names it. *)
Definition nul_id : string := String zero "".
Definition nul_body : string :=
  "{" ++ quote ++ "id" ++ quote ++ ": " ++ quote ++ "\u0000" ++ quote ++ "}".

(** A decoder for the examples, on the few bodies they send. *)
Definition loads (text : string) : result pyval :=
  if String.eqb text "{}" then Ret (PDict [])
  else if String.eqb text nul_body then Ret (PDict [("id", PStr nul_id)])
  else if String.eqb text "[]" then Ret (PList [])
  else if String.eqb text ("{" ++ quote ++ "id" ++ quote ++ ": " ++ quote ++ "1" ++ quote ++ "}")
  then Ret (PDict [("id", PStr "1")])
  else if String.eqb text (String (ascii_of_nat 255) "") then Raise UnicodeDecodeError
  else Raise JSONDecodeError.

(** A host on which the segment directory exists and holds a manifest,
    the network is up, and the capture process behaves as [poll] and
    [manifest] say. *)
Definition world (poll : nat -> option Z) (manifest : nat -> bool)
           (communicate : result string) (probe : result string) : World :=
  {| hls_dir_exists := true;
     rmtree_error := None;
     makedirs_error := None;
     read_fault := fun n => if 2 ^ 30 <? n then Some MemoryError else None;
     popen_error := fun _ => None;
     fs_open := fun path =>
       if String.eqb path "/tmp/projector-stream/stream.m3u8" then Ret "#EXTM3U"
       else if String.eqb path "/tmp/projector-stream/" then Raise IsADirectoryError
       else if String.eqb path "/tmp/projector-stream/secret" then Raise PermissionError
       else Raise FileNotFoundError;
     spawn_pid := 4242;
     poll_at := poll;
     manifest_at := manifest;
     stderr_text := "Operation not permitted";
     communicate_stderr := communicate;
     wait_code := Ret (-9);
     probe_ip := probe;
     screens := [ PDict [("id", PStr "1"); ("name", PStr "Screen 0");
                         ("type", PStr "screen")] ];
     json_loads := loads;
     json_dumps := dumps;
     str_of := dumps;
     server_header := "BaseHTTP/0.6 Python/3.12.0";
     date_header := "Wed, 04 Nov 2026 08:00:00 GMT";
     error_page := fun code => "<h1>Error " ++ Py.str_int code ++ "</h1>";
     STATIC_DIR := "/opt/projector" |}.

(** The capture process writes its manifest during the third poll. *)
Definition healthy : World :=
  world (fun _ => None) (fun i => (2 <=? i)%nat) (Ret "") (Ret "192.168.1.20").

(** The capture process exits (code 1) before the second poll. *)
Definition denied : World :=
  world (fun i => if (1 <=? i)%nat then Some 1 else None) (fun _ => false)
        (Ret "") (Ret "192.168.1.20").

(** The capture process stays alive and writes nothing. *)
Definition silent : World :=
  world (fun _ => None) (fun _ => false) (Raise TimeoutExpired) (Ret "192.168.1.20").

(** As [healthy], without a network. *)
Definition offline : World :=
  world (fun _ => None) (fun i => (2 <=? i)%nat) (Ret "") (Raise OSError).

(** A world like [base], but for the segment directory, the files and the
    launch. *)
Definition amend (base : World) (dir : bool) (files : string -> result string)
           (launch : list string -> option exn) : World :=
  {| hls_dir_exists := dir;
     rmtree_error := rmtree_error base;
     makedirs_error := makedirs_error base;
     read_fault := read_fault base;
     popen_error := launch;
     fs_open := files;
     spawn_pid := spawn_pid base;
     poll_at := poll_at base;
     manifest_at := manifest_at base;
     stderr_text := stderr_text base;
     communicate_stderr := communicate_stderr base;
     wait_code := wait_code base;
     probe_ip := probe_ip base;
     screens := screens base;
     json_loads := json_loads base;
     json_dumps := json_dumps base;
     str_of := str_of base;
     server_header := server_header base;
     date_header := date_header base;
     error_page := error_page base;
     STATIC_DIR := STATIC_DIR base |}.


(** As [healthy], before the first start: no segment directory yet. *)
Definition fresh : World :=
  amend healthy false (fun _ => Raise FileNotFoundError) (fun _ => None).

Definition get (path : string) : request :=
  {| req_path := path; req_headers := []; req_rfile := "" |}.

Definition post (path length body : string) : request :=
  {| req_path := path;
     req_headers := [("Host", "localhost:8000"); ("content-length", length)];
     req_rfile := body |}.

End Sample.

(** ** Reading the runs *)

(** How the poll of [start_stream] ends in a world, read off the world alone:
    after [k] rounds in which the process was alive and the manifest absent,
    the process has exited with a code, or the manifest has appeared; or all
    rounds pass so. *)
Inductive poll_end : Type :=
| Exited (k : nat) (code : Z)
| Appeared (k : nat)
| Exhausted.

Fixpoint scan (w : World) (n i : nat) : poll_end :=
  match n with
  | O => Exhausted
  | S n' =>
      match poll_at w i with
      | Some code => Exited 0 code
      | None =>
          if manifest_at w i then Appeared 0
          else match scan w n' (S i) with
               | Exited k code => Exited (S k) code
               | Appeared k => Appeared (S k)
               | Exhausted => Exhausted
               end
      end
  end.

(** Rounds [i], ..., [i + n - 1] of the poll see the process alive and no
    manifest. *)
Definition quiet (w : World) (i n : nat) : Prop :=
  forall j, (i <= j < i + n)%nat -> poll_at w j = None /\ manifest_at w j = false.

Definition MANIFEST : string := Py.path_join HLS_DIR "stream.m3u8".

(** The events of one round that neither returns nor breaks. *)
Definition quiet_round (p : pid) : list event :=
  [ ESleep POLL_SLEEP_MS; EPoll p None; EExists MANIFEST ].

Fixpoint rounds (k : nat) (p : pid) : list event :=
  match k with
  | O => []
  | S k' => quiet_round p ++ rounds k' p
  end.

(** The events of [start_stream] up to its loop. *)
Definition launch_events (w : World) (source_id : pyval) (framerate : Z) : list event :=
  EExists HLS_DIR
  :: (if hls_dir_exists w then [ERmtree HLS_DIR] else [])
  ++ [ EMakedirs HLS_DIR;
       EPopen (ffmpeg_argv w source_id framerate) (spawn_pid w) ].

(** What stops [start_stream] before it has a process, if anything: the
    removal of the old segment directory, the making of the new one, an
    argument with NUL, the host's refusal to execute. *)
Definition launch_error (w : World) (argv : list string) : option exn :=
  match (if hls_dir_exists w then rmtree_error w else None) with
  | Some e => Some e
  | None =>
      match makedirs_error w with
      | Some e => Some e
      | None =>
          if existsb Py.has_nul argv then Some ValueError
          else popen_error w argv
      end
  end.

(** The events of a [start_stream] that is stopped so. *)
Definition failed_launch_events (w : World) : list event :=
  EExists HLS_DIR
  :: (if hls_dir_exists w
      then ERmtree HLS_DIR
           :: match rmtree_error w with
              | Some _ => []
              | None => [EMakedirs HLS_DIR]
              end
      else [EMakedirs HLS_DIR]).

(** The events of [start_stream] after a loop that found nothing. *)
Definition shutdown_events (w : World) (p : pid) : list event :=
  [ ETerminate p; ECommunicate p 3 ]
  ++ match communicate_stderr w with
     | Ret out =>
         [ EPrint ("ffmpeg produced no segments. stderr:" ++ newline
                   ++ Py.last_n 500 out) ]
     | Raise _ =>
         [ EKill p;
           EPrint ("ffmpeg produced no segments. stderr:" ++ newline ++ "") ]
     end.

Definition exit_events (w : World) (p : pid) (code : Z) : list event :=
  [ ESleep POLL_SLEEP_MS; EPoll p (Some code); EReadStderr p;
    EPrint ("ffmpeg exited early. stderr:" ++ newline
            ++ Py.last_n 500 (stderr_text w)) ].

Definition found_events (p : pid) : list event :=
  [ ESleep POLL_SLEEP_MS; EPoll p None; EExists MANIFEST ].

(** The run of [start_stream] from the idle state once it has its process:
    as the poll ends. *)
Definition polled_run (w : World) (source_id : pyval) (framerate : Z)
  : result (bool * string) * state * list event :=
  match scan w POLL_ITERATIONS 0 with
  | Exited k code =>
      (Ret (false, MSG_PERMISSION_HINT), idle,
       launch_events w source_id framerate ++ rounds k (spawn_pid w)
       ++ exit_events w (spawn_pid w) code)%list
  | Appeared k =>
      (Ret (true, MSG_STARTED), running (spawn_pid w),
       launch_events w source_id framerate ++ rounds k (spawn_pid w)
       ++ found_events (spawn_pid w))%list
  | Exhausted =>
      (Ret (false, MSG_NO_SEGMENTS), idle,
       launch_events w source_id framerate
       ++ rounds POLL_ITERATIONS (spawn_pid w)
       ++ shutdown_events w (spawn_pid w))%list
  end.


(** The capture processes a run launches: the [Popen] calls that returned
    a process.  (The device listing of [list_screens] is [EListDevices]: a
    [subprocess.run], over when it returns.) *)
Fixpoint launches (t : list event) : list (list string * pid) :=
  match t with
  | [] => []
  | EPopen argv p :: t' => (argv, p) :: launches t'
  | _ :: t' => launches t'
  end.

(** The files a run opens. *)
Fixpoint opened (t : list event) : list string :=
  match t with
  | [] => []
  | EOpen path :: t' => path :: opened t'
  | _ :: t' => opened t'
  end.

(** [needle] occurs in [hay]: what Python's [in] decides on strings. *)
Definition has_substring (needle hay : string) : Prop :=
  exists before after, hay = before ++ needle ++ after.

(** The value of a header of a response, if it carries one of that name. *)
Definition header (r : response) (name : string) : option string :=
  headers_get (headers r) name.

Definition CORS : string := "Access-Control-Allow-Origin".

(** A response that is no file: nothing was opened for it, and it carries
    no cross-origin header. *)
Definition plain_answer (run : result response * state * list event) : Prop :=
  opened (trace_of run) = []
  /\ forall r, value_of run = Ret r -> header r CORS = None.

(** The capture sessions of the host: the processes [Popen] launched, not
    yet disposed of, where a process is disposed of once a poll saw it exited or
    it was sent [terminate] or [kill]. *)
Definition step_sessions (e : event) (live : list pid) : list pid :=
  match e with
  | EPopen _ p => p :: live
  | EPoll p (Some _) => remove Z.eq_dec p live
  | ETerminate p => remove Z.eq_dec p live
  | EKill p => remove Z.eq_dec p live
  | _ => live
  end.

Fixpoint sessions_after (t : list event) (live : list pid) : list pid :=
  match t with
  | [] => live
  | e :: t' => sessions_after t' (step_sessions e live)
  end.

(** The largest number of sessions at any point of a run. *)
Fixpoint peak (t : list event) (live : list pid) : nat :=
  match t with
  | [] => List.length live
  | e :: t' => Nat.max (List.length live) (peak t' (step_sessions e live))
  end.

(** An event that neither launches a capture process nor disposes of
    one. *)
Definition inert (e : event) : bool :=
  match e with
  | EPopen _ _ | EPoll _ (Some _) | ETerminate _ | EKill _ => false
  | _ => true
  end.

(** The handle accounts for the sessions: there is none, or the one the
    handle holds. *)
Definition tracked (s : state) (live : list pid) : Prop :=
  live = [] \/ exists p, live = [p] /\ ffmpeg_proc s = Some p.

(** All events of a served sequence of requests, in order. *)
Definition events_of (out : list (result response * list event)) : list event :=
  concat (map snd out).

(** ** Device listing: the parsing of [list_screens] *)

(** The text here is [result.stderr], a [str]: one character per code point,
    for code points below 256. *)
Module Devices.

(** The argument vector of the listing run. *)
Definition LIST_DEVICES_ARGV : list string :=
  [ "ffmpeg"; "-hide_banner"; "-f"; "avfoundation";
    "-list_devices"; "true"; "-i"; "" ].

(** The line boundaries of [str.splitlines] below code point 256:
    LF, VT, FF, CR, FS, GS, RS and NEL. *)
Definition is_linebreak (c : ascii) : bool :=
  let n := nat_of_ascii c in
  ((10 <=? n) && (n <=? 13) || (28 <=? n) && (n <=? 30) || (n =? 133))%nat.

Definition LF : ascii := ascii_of_nat 10.
Definition CR : ascii := ascii_of_nat 13.

(** The segments between line boundaries, the last one included even when
    empty; [after_cr] says the character before was a CR, whose LF, if it
    follows, belongs to the same boundary. *)
Fixpoint split_raw (after_cr : bool) (s : string) : list string :=
  match s with
  | EmptyString => [""]
  | String c s' =>
      if after_cr && Ascii.eqb c LF then split_raw false s'
      else if is_linebreak c then "" :: split_raw (Ascii.eqb c CR) s'
      else match split_raw false s' with
           | l :: ls => String c l :: ls
           | [] => [String c ""]
           end
  end.

Fixpoint drop_last_empty (ls : list string) : list string :=
  match ls with
  | [] => []
  | [l] => if String.eqb l "" then [] else [l]
  | l :: rest => l :: drop_last_empty rest
  end.

(** [s.splitlines()]: no line ends kept, no empty line after a final
    boundary. *)
Definition splitlines (s : string) : list string :=
  drop_last_empty (split_raw false s).

(** [\d] below code point 256 *)
Definition is_digit (c : ascii) : bool :=
  match Py.digit_val c with Some _ => true | None => false end.

(** The longest run of digits at the head of [s], and what follows it:
    what a greedy [\d+] takes. *)
Fixpoint span_digits (s : string) : string * string :=
  match s with
  | String c s' =>
      if is_digit c
      then let (run, rest) := span_digits s' in (String c run, rest)
      else ("", s)
  | EmptyString => ("", "")
  end.

Definition CAPTURE : string := "] Capture screen ".

(** The pattern [\[(\d+)\] Capture screen (\d+)] matched at the head of [s]:
    the two groups.  The first [\d+] can only stop at the bracket, so at the
    end of its run; the second is greedy with nothing after it. *)
Definition match_at (s : string) : option (string * string) :=
  match s with
  | String c s1 =>
      if Ascii.eqb c "[" then
        let (id, r1) := span_digits s1 in
        if String.eqb id "" then None
        else if Py.startswith CAPTURE r1 then
          let (n, _) := span_digits (Py.drop 17 r1) in
          if String.eqb n "" then None else Some (id, n)
        else None
      else None
  | EmptyString => None
  end.

(** [re.search(pattern, line)]: the match at the first position that has
    one. *)
Fixpoint re_search (line : string) : option (string * string) :=
  match match_at line with
  | Some groups => Some groups
  | None =>
      match line with
      | String _ line' => re_search line'
      | EmptyString => None
      end
  end.

(** The dict [list_screens] appends for a match. *)
Definition screen_entry (groups : string * string) : pyval :=
  PDict [ ("id", PStr (fst groups));
          ("name", PStr ("Screen " ++ snd groups));
          ("type", PStr "screen") ].

(** The loop of [list_screens] over the lines. *)
Fixpoint collect (lines : list string) : list pyval :=
  match lines with
  | [] => []
  | line :: rest =>
      match re_search line with
      | Some groups => screen_entry groups :: collect rest
      | None => collect rest
      end
  end.

(** What [list_screens] returns when the listing run wrote [stderr]. *)
Definition parse_screens (stderr : string) : list pyval :=
  collect (splitlines stderr).

(** A string of digits. *)
Fixpoint all_digits (s : string) : bool :=
  match s with
  | EmptyString => true
  | String c s' => is_digit c && all_digits s'
  end.

Definition number (s : string) : bool :=
  negb (String.eqb s "") && all_digits s.

Fixpoint no_breaks (s : string) : bool :=
  match s with
  | EmptyString => true
  | String c s' => negb (is_linebreak c) && no_breaks s'
  end.

(** No digit at the head. *)
Definition no_digit_head (s : string) : bool :=
  match s with
  | String c _ => negb (is_digit c)
  | EmptyString => true
  end.

(** No opening bracket with a digit after it. *)
Fixpoint calm (s : string) : bool :=
  match s with
  | EmptyString => true
  | String c s' =>
      (negb (Ascii.eqb c "[") || no_digit_head s') && calm s'
  end.

(** The lines an ffmpeg device listing is made of: a screen line, with the
    log prefix before the bracket and whatever follows the screen number;
    any other line. *)
Inductive listing_line : Type :=
| ScreenLine (pre id n post : string)
| OtherLine (text : string).

Definition line_text (l : listing_line) : string :=
  match l with
  | ScreenLine pre id n post => pre ++ "[" ++ id ++ CAPTURE ++ n ++ post
  | OtherLine text => text
  end.

Definition well_formed (l : listing_line) : bool :=
  match l with
  | ScreenLine pre id n post =>
      no_breaks pre && calm pre && number id && number n
      && no_breaks post && no_digit_head post
  | OtherLine text => no_breaks text && negb (Py.contains CAPTURE text)
  end.

(** The listing as ffmpeg writes it: every line ended by a newline. *)
Fixpoint render (ls : list listing_line) : string :=
  match ls with
  | [] => ""
  | l :: rest => line_text l ++ String LF (render rest)
  end.

Fixpoint screens_of (ls : list listing_line) : list pyval :=
  match ls with
  | [] => []
  | ScreenLine _ id n _ :: rest => screen_entry (id, n) :: screens_of rest
  | OtherLine _ :: rest => screens_of rest
  end.

(** A listing as printed on a host with a camera and two displays. *)
Definition sample_listing : list listing_line :=
  [ OtherLine "[AVFoundation indev @ 0x7f8] AVFoundation video devices:";
    OtherLine "[AVFoundation indev @ 0x7f8] [0] FaceTime HD Camera";
    ScreenLine "[AVFoundation indev @ 0x7f8] " "1" "0" "";
    ScreenLine "[AVFoundation indev @ 0x7f8] " "2" "1" "";
    OtherLine "[AVFoundation indev @ 0x7f8] AVFoundation audio devices:";
    OtherLine "[AVFoundation indev @ 0x7f8] [0] MacBook Pro Microphone" ].

End Devices.

(** ** Shutdown: the handlers [main] installs *)

(** [cleanup] of [main], registered with [atexit] and called by both signal
    handlers. *)
Definition cleanup (w : World) : M unit := stop_stream w.

(** The SIGINT handler: [print], [cleanup()], [os._exit(0)].  The value is
    the exit status; [os._exit] runs no exit hook, so nothing follows. *)
Definition on_SIGINT (w : World) : M Z :=
  emit (EPrint (newline ++ "Stopped.")) ;;
  cleanup w ;;
  ret 0.

(** The SIGTERM handler: [cleanup()], [os._exit(0)]. *)
Definition on_SIGTERM (w : World) : M Z :=
  cleanup w ;;
  ret 0.

(** ** More readings of a run *)

(** The address [get_local_ip] returns in a world. *)
Definition local_ip (w : World) : string :=
  match probe_ip w with
  | Ret ip => ip
  | Raise _ => "127.0.0.1"
  end.

(** A response a client can frame: it says its type, and its length is the
    length of its body. *)
Definition framed (r : response) : Prop :=
  header r "Content-Length" = Some (Py.str_int (Py.len (body r)))
  /\ header r "Content-Type" <> None.

(** The routes of [do_GET] other than the segment files, and of [do_POST]. *)
Definition GET_ROUTES : list string :=
  [ "/project"; "/"; "/index.html"; "/api/status"; "/api/sources" ].
Definition POST_ROUTES : list string := [ "/api/start"; "/api/stop" ].


(** The processes a run sends [kill]. *)
Fixpoint kills (t : list event) : list pid :=
  match t with
  | [] => []
  | EKill p :: t' => p :: kills t'
  | _ :: t' => kills t'
  end.

(** The calls a GET may make outside the interpreter: opening a file, the
    address probe of [get_local_ip], the listing run of [list_screens]. *)
Definition viewer_call (e : event) : bool :=
  match e with
  | EOpen _ => true
  | EConnect host port => String.eqb host "8.8.8.8" && (port =? 80)
  | EListDevices => true
  | _ => false
  end.

(** A run of [start_stream] that begins afresh, from no session: it looks
    for the segment directory, removes it if it is there, makes it and
    launches one process; or, stopped on the way, raises with no process
    launched and no session. *)
Definition fresh_start (w : World) (source_id : pyval) (framerate : Z)
           (run : result (bool * string) * state * list event) : Prop :=
  match launch_error w (ffmpeg_argv w source_id framerate) with
  | None =>
      launches (trace_of run) = [(ffmpeg_argv w source_id framerate, spawn_pid w)]
      /\ exists rest,
           trace_of run
           = (EExists HLS_DIR
              :: (if hls_dir_exists w then [ERmtree HLS_DIR] else [])
              ++ EMakedirs HLS_DIR
              :: EPopen (ffmpeg_argv w source_id framerate) (spawn_pid w)
              :: rest)%list
  | Some e => run = (Raise e, idle, failed_launch_events w)
  end.


(** ** The poll loop *)



Lemma quiet_head w i k :
  quiet w i (S k) -> poll_at w i = None /\ manifest_at w i = false.
Proof. intros Hq; apply Hq; lia. Qed.

Lemma quiet_tail w i k : quiet w i (S k) -> quiet w (S i) k.
Proof. intros Hq j Hj; apply Hq; lia. Qed.



Lemma scan_appeared w n i k :
  (k < n)%nat -> quiet w i k ->
  poll_at w (i + k) = None -> manifest_at w (i + k) = true ->
  scan w n i = Appeared k.
Proof.
  revert i k; induction n as [|n IH]; intros i k Hk Hq He Ha; [lia|].
  destruct k as [|k]; simpl.
  - rewrite Nat.add_0_r in He, Ha. now rewrite He, Ha.
  - destruct (quiet_head _ _ _ Hq) as [-> ->].
    rewrite (IH (S i) k); auto using quiet_tail with arith;
      now rewrite Nat.add_succ_comm.
Qed.


Ltac unfold_py :=
  unfold bind, ret, raise, emit, get_proc, set_proc, lift, try_except,
    proc_object, running, idle in *.

(** The loop, from a state that tracks process [p], ends as [scan] says. *)
Lemma wait_first_segment_run w p n i :
  wait_first_segment w n i (running p) =
  match scan w n i with
  | Exited k code =>
      (Ret (Some (false, MSG_PERMISSION_HINT)), idle,
       rounds k p ++ exit_events w p code)%list
  | Appeared k =>
      (Ret (Some (true, MSG_STARTED)), running p,
       rounds k p ++ found_events p)%list
  | Exhausted => (Ret None, running p, rounds n p)
  end.
Proof.
  revert i; induction n as [|n IH]; intros i; [reflexivity|].
  cbn [wait_first_segment scan].
  unfold_py; cbn.
  destruct (poll_at w i) as [c|]; [reflexivity|].
  destruct (manifest_at w i); [reflexivity|].
  rewrite IH.
  destruct (scan w n (S i)); reflexivity.
Qed.

Lemma no_segments_exit_run w p :
  no_segments_exit w (running p) =
  (Ret (false, MSG_NO_SEGMENTS), idle, shutdown_events w p).
Proof.
  unfold no_segments_exit, shutdown_events; unfold_py; cbn [ffmpeg_proc].
  destruct (communicate_stderr w); reflexivity.
Qed.

(** [start_stream] from the idle state, in full: stopped before it has a
    process, or polling the process it launched. *)
Lemma start_stream_idle w source_id framerate :
  start_stream w source_id framerate idle =
  match launch_error w (ffmpeg_argv w source_id framerate) with
  | Some e => (Raise e, idle, failed_launch_events w)
  | None => polled_run w source_id framerate
  end.
Proof.
  unfold start_stream, polled_run, launch_error, failed_launch_events,
    launch_events.
  generalize POLL_ITERATIONS; intros n.
  pose proof (wait_first_segment_run w (spawn_pid w) n 0) as Hloop.
  pose proof (no_segments_exit_run w (spawn_pid w)) as Hexit.
  remember (ffmpeg_argv w source_id framerate) as argv.
  unfold prepare_hls_dir, popen, call; unfold_py.
  destruct (hls_dir_exists w); [destruct (rmtree_error w)|]; cbn;
    try reflexivity;
    (destruct (makedirs_error w); cbn; [reflexivity|]);
    (destruct (existsb Py.has_nul argv); cbn; [reflexivity|]);
    (destruct (popen_error w argv); cbn; [reflexivity|]);
    rewrite Hloop; destruct (scan w n 0); cbn;
    rewrite ?Hexit, ?app_nil_r; reflexivity.
Qed.


Lemma start_stream_refused w source_id framerate e :
  launch_error w (ffmpeg_argv w source_id framerate) = Some e ->
  start_stream w source_id framerate idle = (Raise e, idle, failed_launch_events w).
Proof. intros H. now rewrite start_stream_idle, H. Qed.

Lemma start_stream_running w source_id framerate p :
  start_stream w source_id framerate (running p) =
  (Ret (true, MSG_ALREADY_RUNNING), running p, []).
Proof. reflexivity. Qed.

Lemma stop_stream_idle w : stop_stream w idle = (Ret tt, idle, []).
Proof. reflexivity. Qed.

Lemma stop_stream_running w p :
  stop_stream w (running p) = (Ret tt, idle, [EKill p; EWait p 2]).
Proof.
  unfold stop_stream; unfold_py; cbn. destruct (wait_code w); reflexivity.
Qed.

Lemma get_local_ip_run w s :
  get_local_ip w s =
  (Ret (match probe_ip w with Ret ip => ip | Raise _ => "127.0.0.1" end),
   s, [EConnect "8.8.8.8" 80]).
Proof.
  unfold get_local_ip; unfold_py; cbn. destruct (probe_ip w); reflexivity.
Qed.

Lemma state_cases (s : state) : s = idle \/ exists p, s = running p.
Proof. destruct s as [[p|]]; [right; exists p|left]; reflexivity. Qed.

(** ** Strings *)

Lemma startswith_spec p s :
  Py.startswith p s = true <-> exists rest, s = p ++ rest.
Proof.
  revert s; induction p as [|a p IH]; intros s; simpl.
  - split; [exists s; reflexivity | reflexivity].
  - destruct s as [|b s].
    + split; [discriminate | intros [r Hr]; discriminate].
    + rewrite andb_true_iff, Ascii.eqb_eq, IH. split.
      * intros [-> [r ->]]. now exists r.
      * intros [r Hr]. inversion Hr; subst. split; [reflexivity | now exists r].
Qed.

Lemma contains_spec needle hay :
  Py.contains needle hay = true <-> has_substring needle hay.
Proof.
  unfold has_substring. induction hay as [|c hay IH].
  - simpl. rewrite orb_false_r, startswith_spec. split.
    + intros [r Hr]. now exists "", r.
    + intros ([|x b] & a & H); [now exists a | discriminate].
  - cbn [Py.contains]. rewrite orb_true_iff, IH, startswith_spec. split.
    + intros [[r Hr] | (b & a & H)].
      * now exists "", r.
      * exists (String c b), a. simpl. now rewrite H.
    + intros ([|x b] & a & H).
      * left. now exists a.
      * right. simpl in H. inversion H. now exists b, a.
Qed.

(** ** Starting, stopping and serving: the specified properties *)

(** C1.  At most one capture session: in every state that tracks a session
    (the handle is not [None]), [start_stream] returns
    [(True, "Already running")] at once, with no event at all (no second
    process, no wait) and the state, so the handle, as it was. *)
Theorem start_when_running_is_noop
  (w : World) (source_id : pyval) (framerate : Z) (s : state) :
  ffmpeg_proc s <> None ->
  start_stream w source_id framerate s = (Ret (true, "Already running"), s, []).
Proof.
  destruct s as [[p|]]; [reflexivity | intros H; now contradiction H].
Qed.

Lemma start_when_running_is_noop_witness :
  start_stream Sample.healthy (PStr "1") 30 (running 7)
  = (Ret (true, "Already running"), running 7, []).
Proof.
  apply (start_when_running_is_noop Sample.healthy (PStr "1") 30 (running 7)).
  simpl. discriminate.
Defined.

(** C2.  A GET of [/hls/<filename>] whose filename contains [..] or [/] is
    answered 403 with no event at all, so without any file access, whatever
    the file system holds. *)
Theorem hls_traversal_is_forbidden
  (w : World) (hs : list (string * string)) (rfile filename : string) (s : state) :
  has_substring ".." filename \/ has_substring "/" filename ->
  exists r,
    do_GET w {| req_path := "/hls/" ++ filename;
                req_headers := hs; req_rfile := rfile |} s = (Ret r, s, [])
    /\ status r = 403.
Proof.
  intros H.
  assert (Py.contains ".." filename || Py.contains "/" filename = true) as Hc.
  { rewrite orb_true_iff, !contains_spec. exact H. }
  unfold do_GET. cbn. rewrite Hc. eexists. split; reflexivity.
Qed.

Lemma hls_traversal_is_forbidden_witness :
  exists r,
    do_GET Sample.healthy (Sample.get "/hls/../server.py") idle = (Ret r, idle, [])
    /\ status r = 403.
Proof.
  apply (hls_traversal_is_forbidden Sample.healthy [] "" "../server.py" idle).
  left. exists "", "/server.py". reflexivity.
Defined.








Lemma launches_failed_launch w : launches (failed_launch_events w) = [].
Proof.
  unfold failed_launch_events.
  destruct (hls_dir_exists w); [destruct (rmtree_error w)|]; reflexivity.
Qed.







Lemma do_POST_stop w req s :
  req_path req = "/api/stop" ->
  do_POST w req s =
  (value_of (send_json w (PDict [("ok", PBool true); ("message", PStr "Stopped")]) s),
   idle,
   match ffmpeg_proc s with Some p => [EKill p; EWait p 2] | None => [] end).
Proof.
  intros Hpath. unfold do_POST. rewrite Hpath.
  cbn [String.eqb Ascii.eqb Bool.eqb]. unfold bind.
  destruct (state_cases s) as [-> | [p ->]];
    rewrite ?stop_stream_idle, ?stop_stream_running; reflexivity.
Qed.

(** C5.  [stop_stream] is total and idempotent.  Idle, it does nothing.
    With a session it kills the process, waits for it (2 s at most, a
    timeout ignored) and clears the handle.  A second stop finds nothing to
    do.  POST [/api/stop] answers [{ok: true, message: "Stopped"}] in every
    state, and leaves no session. *)
Theorem stop_is_total_and_idempotent (w w' : World) :
  stop_stream w idle = (Ret tt, idle, [])
  /\ (forall p, stop_stream w (running p) = (Ret tt, idle, [EKill p; EWait p 2]))
  /\ (forall s, value_of (stop_stream w s) = Ret tt
                /\ ffmpeg_proc (state_of (stop_stream w s)) = None)
  /\ (forall s, stop_stream w' (state_of (stop_stream w s))
                = (Ret tt, state_of (stop_stream w s), []))
  /\ (forall req s,
        req_path req = "/api/stop" ->
        exists r,
          value_of (do_POST w req s) = Ret r
          /\ status r = 200
          /\ body r = json_dumps w (PDict [("ok", PBool true);
                                           ("message", PStr "Stopped")])
          /\ ffmpeg_proc (state_of (do_POST w req s)) = None).
Proof.
  split; [apply stop_stream_idle|]. split; [apply stop_stream_running|].
  split; [|split].
  - intros s. destruct (state_cases s) as [-> | [p ->]];
      rewrite ?stop_stream_idle, ?stop_stream_running; now split.
  - intros s. destruct (state_cases s) as [-> | [p ->]];
      rewrite ?(stop_stream_idle w), ?(stop_stream_running w);
      apply stop_stream_idle.
  - intros req s Hpath. rewrite (do_POST_stop w req s Hpath).
    eexists; repeat split.
Qed.

Lemma stop_is_total_and_idempotent_witness :
  exists r,
    value_of (do_POST Sample.healthy (Sample.post "/api/stop" "0" "") (running 7))
    = Ret r
    /\ status r = 200
    /\ body r = json_dumps Sample.healthy (PDict [("ok", PBool true);
                                                  ("message", PStr "Stopped")])
    /\ ffmpeg_proc
         (state_of (do_POST Sample.healthy (Sample.post "/api/stop" "0" "")
                            (running 7))) = None.
Proof.
  apply (stop_is_total_and_idempotent Sample.healthy Sample.healthy).
  reflexivity.
Defined.

(** C7.  GET [/api/status].  The address is the one the probe connection
    reports, or 127.0.0.1 when the probe raises.  Without a session the body
    is the JSON of [running = false], that address and [viewer_url = null];
    with one, of [running = true], the address, and the URL made of
    [http://], the address, a colon and the control port 8000. *)
Theorem status_reports_session (w : World) (req : request) (s : state) :
  req_path req = "/api/status" ->
  (forall e, probe_ip w = Raise e -> value_of (get_local_ip w s) = Ret "127.0.0.1")
  /\ (forall a, probe_ip w = Ret a -> value_of (get_local_ip w s) = Ret a)
  /\ exists ip r,
       value_of (get_local_ip w s) = Ret ip
       /\ value_of (do_GET w req s) = Ret r
       /\ status r = 200
       /\ (ffmpeg_proc s = None ->
           body r = json_dumps w (PDict [("running", PBool false);
                                         ("ip", PStr ip);
                                         ("viewer_url", PNone)]))
       /\ (ffmpeg_proc s <> None ->
           body r = json_dumps w
                      (PDict [("running", PBool true);
                              ("ip", PStr ip);
                              ("viewer_url", PStr ("http://" ++ ip ++ ":8000"))])).
Proof.
  intros Hpath. rewrite get_local_ip_run. unfold value_of; cbn [fst].
  split; [now intros e ->|]. split; [now intros a ->|].
  unfold do_GET. rewrite Hpath. cbn [String.eqb Ascii.eqb Bool.eqb orb Py.startswith andb].
  unfold bind at 1. rewrite get_local_ip_run.
  destruct s as [[p|]]; cbn; eexists; eexists; repeat split;
    intros H; try reflexivity; try discriminate H; now contradiction H.
Qed.

Lemma status_reports_session_witness :
  value_of (get_local_ip Sample.offline (running 7)) = Ret "127.0.0.1".
Proof.
  apply (proj1 (status_reports_session Sample.offline (Sample.get "/api/status")
                  (running 7) eq_refl) OSError).
  reflexivity.
Defined.

Lemma serve_file_run w filepath content_type cache s :
  serve_file w filepath content_type cache s =
  (match fs_open w filepath with
   | Ret content =>
       Ret {| status := 200;
              headers := response_start w ++
                [ ("Content-Type", content_type);
                  ("Content-Length", Py.str_int (Py.len content));
                  ("Cache-Control",
                   if cache then "max-age=60"
                   else "no-cache, no-store, must-revalidate");
                  ("Access-Control-Allow-Origin", "*") ];
              body := content |}
   | Raise FileNotFoundError => value_of (send_error w 404 s)
   | Raise e => Raise e
   end, s, [EOpen filepath]).
Proof.
  unfold serve_file; unfold_py; cbn.
  destruct (fs_open w filepath) as [content|[]]; reflexivity.
Qed.

(** C10.  [serve_file] answers 404 exactly when opening the path raises
    [FileNotFoundError]; any other exception of the open leaves the handler
    as it is, with no response.  The path [/hls/] has the empty filename: it
    passes the traversal filter and resolves to the segment directory with a
    trailing separator.  What opening that path raises decides the answer
    like for any other path: 404 when it is [FileNotFoundError] (no segment
    directory yet), the exception itself otherwise (the directory is
    there). *)
Theorem serve_file_maps_only_not_found (w : World) :
  (forall filepath content_type cache s,
     (exists r, value_of (serve_file w filepath content_type cache s) = Ret r
                /\ status r = 404)
     <-> fs_open w filepath = Raise FileNotFoundError)
  /\ (forall filepath content_type cache s e,
        fs_open w filepath = Raise e -> e <> FileNotFoundError ->
        value_of (serve_file w filepath content_type cache s) = Raise e)
  /\ Py.contains ".." (Py.drop 5 "/hls/") || Py.contains "/" (Py.drop 5 "/hls/")
     = false
  /\ Py.path_join HLS_DIR (Py.drop 5 "/hls/") = HLS_DIR ++ "/"
  /\ (forall hs rfile s,
        do_GET w {| req_path := "/hls/"; req_headers := hs; req_rfile := rfile |} s
        = serve_file w (HLS_DIR ++ "/") "application/octet-stream" false s)
  /\ (forall hs rfile s,
        fs_open w (HLS_DIR ++ "/") = Raise FileNotFoundError ->
        exists r,
          do_GET w {| req_path := "/hls/"; req_headers := hs; req_rfile := rfile |} s
          = (Ret r, s, [EOpen (HLS_DIR ++ "/")])
          /\ status r = 404)
  /\ (forall hs rfile s e,
        fs_open w (HLS_DIR ++ "/") = Raise e -> e <> FileNotFoundError ->
        do_GET w {| req_path := "/hls/"; req_headers := hs; req_rfile := rfile |} s
        = (Raise e, s, [EOpen (HLS_DIR ++ "/")])).
Proof.
  split; [|split; [|repeat split]].
  - intros filepath content_type cache s. rewrite serve_file_run.
    unfold value_of; cbn [fst].
    destruct (fs_open w filepath) as [content|e].
    + split; [|discriminate]. intros (r & Hr & Hs). inversion Hr; subst r.
      discriminate Hs.
    + destruct e; (split; [intros (r & Hr & Hs); try discriminate Hr; reflexivity
                          | intros He; try discriminate He]).
      eexists; split; reflexivity.
  - intros filepath content_type cache s e He Hne.
    rewrite serve_file_run, He. destruct e; try reflexivity. now contradiction Hne.
  - intros hs rfile s He.
    change (do_GET w {| req_path := "/hls/"; req_headers := hs; req_rfile := rfile |} s)
      with (serve_file w (HLS_DIR ++ "/") "application/octet-stream" false s).
    rewrite serve_file_run, He. eexists; split; reflexivity.
  - intros hs rfile s e He Hne.
    change (do_GET w {| req_path := "/hls/"; req_headers := hs; req_rfile := rfile |} s)
      with (serve_file w (HLS_DIR ++ "/") "application/octet-stream" false s).
    rewrite serve_file_run, He. destruct e; try reflexivity. now contradiction Hne.
Qed.

Lemma serve_file_maps_only_not_found_witness :
  do_GET Sample.healthy (Sample.get "/hls/") (running 7)
  = (Raise IsADirectoryError, running 7, [EOpen "/tmp/projector-stream/"]).
Proof.
  apply (proj2 (proj2 (proj2 (proj2 (proj2 (proj2
           (serve_file_maps_only_not_found Sample.healthy))))))
           [] "" (running 7) IsADirectoryError).
  - reflexivity.
  - discriminate.
Defined.

(** C10, as stated, fails in its last part: before the first start there
    is no segment directory, the open failure of [/hls/] is
    [FileNotFoundError], and it is answered with 404. *)
Lemma hls_root_is_not_found_without_directory :
  hls_dir_exists Sample.fresh = false
  /\ fs_open Sample.fresh (Py.path_join HLS_DIR (Py.drop 5 "/hls/"))
     = Raise FileNotFoundError
  /\ exists r,
       do_GET Sample.fresh (Sample.get "/hls/") idle
       = (Ret r, idle, [EOpen "/tmp/projector-stream/"])
       /\ status r = 404.
Proof.
  split; [reflexivity|split; [reflexivity|]].
  eexists; split; [vm_compute; reflexivity | reflexivity].
Qed.

(** ** POST /api/start *)

(** The body of a POST [/api/start], as a value: the header parsed, the
    bytes read, the JSON decoded, a [JSONDecodeError] taken as [{}]. *)
Lemma request_data_run w req s :
  request_data w req s =
  (match headers_get (req_headers req) "Content-Length" with
   | Some text =>
       match Py.int_of_str text with
       | Some n =>
           match (if n =? 0 then Ret "" else rfile_read w (req_rfile req) n) with
           | Ret body =>
               if String.eqb body "" then Ret (PDict [])
               else match json_loads w body with
                    | Ret v => Ret v
                    | Raise JSONDecodeError => Ret (PDict [])
                    | Raise e => Raise e
                    end
           | Raise e => Raise e
           end
       | None => Raise ValueError
       end
   | None => Ret (PDict [])
   end, s, []).
Proof.
  unfold request_data; unfold_py; cbn.
  destruct (headers_get (req_headers req) "Content-Length") as [text|];
    [|reflexivity].
  destruct (Py.int_of_str text) as [n|]; [|reflexivity].
  destruct (n =? 0); cbn; [reflexivity|].
  destruct (rfile_read w (req_rfile req) n) as [body|e]; [|reflexivity].
  destruct (String.eqb body ""); cbn; [reflexivity|].
  destruct (json_loads w body) as [v|[]]; reflexivity.
Qed.

Lemma request_data_decoded w s path hs text n rfile body :
  headers_get hs "Content-Length" = Some text ->
  Py.int_of_str text = Some n ->
  (n =? 0) = false ->
  rfile_read w rfile n = Ret body ->
  String.eqb body "" = false ->
  request_data w {| req_path := path; req_headers := hs; req_rfile := rfile |} s
  = (match json_loads w body with
     | Ret v => Ret v
     | Raise JSONDecodeError => Ret (PDict [])
     | Raise e => Raise e
     end, s, []).
Proof.
  intros Hh Hn Hz Hr Hb. rewrite request_data_run.
  cbn [req_headers req_rfile]. now rewrite Hh, Hn, Hz, Hr, Hb.
Qed.

(** Reading the body touches neither the handle nor the world. *)
Lemma request_data_pure w req s :
  exists r, request_data w req s = (r, s, []).
Proof. rewrite request_data_run. eauto. Qed.

Lemma do_POST_start w req s :
  req_path req = "/api/start" ->
  do_POST w req s =
  match value_of (request_data w req s) with
  | Raise e => (Raise e, s, [])
  | Ret data =>
      match method_get data "id" (PStr "3") with
      | Raise e => (Raise e, s, [])
      | Ret source_id =>
          match start_stream w source_id 30 s with
          | (Raise e, s1, t) => (Raise e, s1, t)
          | (Ret (ok, msg), s1, t) =>
              (value_of (send_json w (PDict
                 [ ("ok", PBool ok);
                   ("message", PStr msg);
                   ("url", if ok
                           then PStr (viewer_url
                                  (match probe_ip w with
                                   | Ret ip => ip
                                   | Raise _ => "127.0.0.1"
                                   end))
                           else PNone);
                   ("ip", PStr (match probe_ip w with
                                | Ret ip => ip
                                | Raise _ => "127.0.0.1"
                                end)) ]) s1),
               s1, (t ++ [EConnect "8.8.8.8" 80])%list)
          end
      end
  end.
Proof.
  intros Hpath. unfold do_POST. rewrite Hpath.
  cbn [String.eqb Ascii.eqb Bool.eqb]. unfold bind.
  destruct (request_data_pure w req s) as [r ->]. unfold value_of; cbn [fst].
  destruct r as [data|e]; [|reflexivity].
  unfold lift. destruct (method_get data "id" (PStr "3")) as [source_id|e];
    [|reflexivity].
  cbn [app].
  destruct (start_stream w source_id 30 s) as [[[[ok msg]|e] s1] t]; [|reflexivity].
  rewrite get_local_ip_run. cbn. reflexivity.
Qed.

Lemma launches_app t1 t2 : launches (t1 ++ t2) = (launches t1 ++ launches t2)%list.
Proof.
  induction t1 as [|e t1 IH]; [reflexivity|].
  destruct e; simpl; now rewrite ?IH.
Qed.

Lemma launches_rounds k p : launches (rounds k p) = [].
Proof. induction k as [|k IH]; simpl; now rewrite ?IH. Qed.

Lemma launches_In t argv p : In (EPopen argv p) t <-> In (argv, p) (launches t).
Proof.
  induction t as [|e t IH]; [reflexivity|].
  destruct e; simpl; rewrite <- IH;
    try (split; [intros [H|H]; [discriminate H | exact H] | now right]).
  split; (intros [H|H]; [left; now inversion H | now right]).
Qed.

(** What [start_stream] launches: one process from the idle state, unless
    the launch is stopped; none from any other state. *)
Lemma start_stream_launches w source_id framerate s :
  launches (trace_of (start_stream w source_id framerate s)) =
  match ffmpeg_proc s with
  | None =>
      match launch_error w (ffmpeg_argv w source_id framerate) with
      | None => [(ffmpeg_argv w source_id framerate, spawn_pid w)]
      | Some _ => []
      end
  | Some _ => []
  end.
Proof.
  destruct (state_cases s) as [-> | [p ->]]; [|reflexivity].
  rewrite start_stream_idle. cbn [ffmpeg_proc idle].
  destruct (launch_error w (ffmpeg_argv w source_id framerate));
    [apply launches_failed_launch|].
  unfold polled_run.
  destruct (scan w POLL_ITERATIONS 0); unfold trace_of; cbn [snd];
    rewrite !launches_app, launches_rounds; unfold launch_events, shutdown_events;
    destruct (hls_dir_exists w); try destruct (communicate_stderr w); reflexivity.
Qed.

Lemma do_POST_start_launches w req s :
  req_path req = "/api/start" ->
  launches (trace_of (do_POST w req s)) =
  match value_of (request_data w req s) with
  | Ret (PDict items) =>
      match ffmpeg_proc s with
      | None =>
          match launch_error w (ffmpeg_argv w (dict_get items "id" (PStr "3")) 30) with
          | None =>
              [(ffmpeg_argv w (dict_get items "id" (PStr "3")) 30, spawn_pid w)]
          | Some _ => []
          end
      | Some _ => []
      end
  | _ => []
  end.
Proof.
  intros Hpath. rewrite (do_POST_start w req s Hpath).
  destruct (value_of (request_data w req s)) as [data|e]; [|reflexivity].
  destruct data; try reflexivity. cbn [method_get].
  pose proof (start_stream_launches w (dict_get items "id" (PStr "3")) 30 s) as H.
  destruct (start_stream w (dict_get items "id" (PStr "3")) 30 s)
    as [[[[ok msg]|e] s1] t]; unfold trace_of in *; cbn [snd] in *;
    rewrite ?launches_app, H, ?app_nil_r; reflexivity.
Qed.

Lemma dict_get_absent {V} (items : list (string * V)) key default :
  ~ In key (map fst items) -> dict_get items key default = default.
Proof.
  induction items as [|[k v] items IH]; simpl; [reflexivity|].
  intros H. destruct (String.eqb_spec k key) as [->|Hne].
  - contradiction H. now left.
  - apply IH. intros Hin. apply H. now right.
Qed.

(** C9.  POST [/api/start] never sets the frame rate: every process it
    launches has the argument vector of [start_stream] at frame rate 30,
    [-framerate 30] in it.  When the JSON object of the body has no [id],
    the source is [3]: the process is launched on input [3:none], no
    argument of which holds NUL, and from the idle state it is launched
    exactly when the segment directory and the host let it. *)
Theorem start_request_rate_and_default_source
  (w : World) (req : request) (s : state) :
  req_path req = "/api/start" ->
  (forall argv p,
     In (EPopen argv p) (trace_of (do_POST w req s)) ->
     (exists source_id, argv = ffmpeg_argv w source_id 30)
     /\ nth_error argv 3 = Some "-framerate"
     /\ nth_error argv 4 = Some "30")
  /\ (forall items,
        value_of (request_data w req s) = Ret (PDict items) ->
        ~ In "id" (map fst items) ->
        (forall argv p,
           In (EPopen argv p) (trace_of (do_POST w req s)) ->
           argv = ffmpeg_argv w (PStr "3") 30
           /\ nth_error argv 7 = Some "-i"
           /\ nth_error argv 8 = Some "3:none")
        /\ existsb Py.has_nul (ffmpeg_argv w (PStr "3") 30) = false
        /\ (ffmpeg_proc s = None ->
            (In (EPopen (ffmpeg_argv w (PStr "3") 30) (spawn_pid w))
                (trace_of (do_POST w req s))
             <-> launch_error w (ffmpeg_argv w (PStr "3") 30) = None))).
Proof.
  intros Hpath. pose proof (do_POST_start_launches w req s Hpath) as HL.
  split.
  - intros argv p Hin. apply launches_In in Hin. rewrite HL in Hin.
    destruct (value_of (request_data w req s)) as [[]|]; try contradiction.
    destruct (ffmpeg_proc s); [contradiction|].
    destruct (launch_error w _); [contradiction|].
    destruct Hin as [Hin|[]]. inversion Hin; subst.
    repeat split. eexists; reflexivity.
  - intros items Hdata Hid. rewrite Hdata, (dict_get_absent items) in HL by exact Hid.
    split; [|split; [reflexivity|]].
    + intros argv p Hin. apply launches_In in Hin. rewrite HL in Hin.
      destruct (ffmpeg_proc s); [contradiction|].
      destruct (launch_error w _); [contradiction|].
      destruct Hin as [Hin|[]]. inversion Hin; subst. repeat split.
    + intros Hs. rewrite launches_In, HL, Hs.
      destruct (launch_error w (ffmpeg_argv w (PStr "3") 30)); split;
        try discriminate; try contradiction; auto. now left.
Qed.

Lemma start_request_rate_and_default_source_witness :
  In (EPopen (ffmpeg_argv Sample.healthy (PStr "3") 30) 4242)
     (trace_of (do_POST Sample.healthy (Sample.post "/api/start" "2" "{}") idle)).
Proof.
  apply (proj2 (start_request_rate_and_default_source Sample.healthy
                  (Sample.post "/api/start" "2" "{}") idle eq_refl) []);
    try reflexivity.
  simpl. tauto.
Defined.

(** C4.  POST [/api/start] on malformed input.  A [Content-Length] that is
    no integer raises [ValueError] out of the handler: no response, in any
    world.  So does a body the decoder refuses with another exception than
    [JSONDecodeError] (bytes that are no UTF-8), and so does a body that is
    JSON but no object, on which [data.get] raises [AttributeError].  Only
    a [JSONDecodeError] is taken as the empty object. *)
Theorem start_request_malformed_input (w : World) (s : state) :
  do_POST w (Sample.post "/api/start" "abc" "{}") s = (Raise ValueError, s, [])
  /\ (json_loads w (String (ascii_of_nat 255) "") = Raise UnicodeDecodeError ->
      do_POST w (Sample.post "/api/start" "1" (String (ascii_of_nat 255) "")) s
      = (Raise UnicodeDecodeError, s, []))
  /\ (json_loads w "[]" = Ret (PList []) ->
      do_POST w (Sample.post "/api/start" "2" "[]") s
      = (Raise AttributeError, s, []))
  /\ (forall path hs text n rfile body,
        headers_get hs "Content-Length" = Some text ->
        Py.int_of_str text = Some n ->
        rfile_read w rfile n = Ret body ->
        json_loads w body = Raise JSONDecodeError ->
        request_data w {| req_path := path; req_headers := hs;
                          req_rfile := rfile |} s
        = (Ret (PDict []), s, [])).
Proof.
  split; [reflexivity|]. split; [|split].
  - intros H. rewrite do_POST_start by reflexivity. unfold Sample.post.
    erewrite request_data_decoded by reflexivity.
    match goal with
    | |- context [json_loads w ?b] =>
        replace (json_loads w b) with (@Raise pyval UnicodeDecodeError)
          by (symmetry; exact H)
    end. reflexivity.
  - intros H. rewrite do_POST_start by reflexivity. unfold Sample.post.
    erewrite request_data_decoded by reflexivity.
    match goal with
    | |- context [json_loads w ?b] =>
        replace (json_loads w b) with (Ret (PList [])) by (symmetry; exact H)
    end. reflexivity.
  - intros path hs text n rfile body Hh Hn Hr Hj.
    rewrite request_data_run. cbn [req_headers req_rfile]. rewrite Hh, Hn.
    destruct (n =? 0); [reflexivity|]. rewrite Hr.
    destruct (String.eqb body ""); [reflexivity|]. now rewrite Hj.
Qed.

Lemma start_request_malformed_input_witness :
  do_POST Sample.healthy (Sample.post "/api/start" "2" "[]") idle
  = (Raise AttributeError, idle, []).
Proof.
  apply (proj1 (proj2 (proj2
           (start_request_malformed_input Sample.healthy idle)))).
  reflexivity.
Defined.

(** ** Cross-origin header *)

Lemma opened_app t1 t2 : opened (t1 ++ t2) = (opened t1 ++ opened t2)%list.
Proof.
  induction t1 as [|e t1 IH]; [reflexivity|].
  destruct e; simpl; now rewrite ?IH.
Qed.

Lemma opened_rounds k p : opened (rounds k p) = [].
Proof. induction k as [|k IH]; simpl; now rewrite ?IH. Qed.

Lemma start_stream_opens_nothing w source_id framerate s :
  opened (trace_of (start_stream w source_id framerate s)) = [].
Proof.
  destruct (state_cases s) as [-> | [p ->]]; [|reflexivity].
  rewrite start_stream_idle.
  destruct (launch_error w (ffmpeg_argv w source_id framerate)).
  { unfold trace_of, failed_launch_events; cbn [snd].
    destruct (hls_dir_exists w); [destruct (rmtree_error w)|]; reflexivity. }
  unfold polled_run.
  destruct (scan w POLL_ITERATIONS 0); unfold trace_of; cbn [snd];
    rewrite !opened_app, opened_rounds; unfold launch_events, shutdown_events;
    destruct (hls_dir_exists w); try destruct (communicate_stderr w); reflexivity.
Qed.

(** What [serve_file] answers carries the header exactly on status 200. *)
Lemma serve_file_cors w filepath content_type cache s r :
  value_of (serve_file w filepath content_type cache s) = Ret r ->
  header r CORS = if status r =? 200 then Some "*" else None.
Proof.
  rewrite serve_file_run. unfold value_of; cbn [fst].
  destruct (fs_open w filepath) as [content|[]]; intros H; inversion H; reflexivity.
Qed.

Lemma serve_file_opened w filepath content_type cache s :
  opened (trace_of (serve_file w filepath content_type cache s)) = [filepath].
Proof. now rewrite serve_file_run. Qed.

Lemma send_json_plain w data s s' t :
  opened t = [] ->
  plain_answer (value_of (send_json w data s), s', t).
Proof. intros Ht. split; [exact Ht|]. intros r H; inversion H; reflexivity. Qed.

Lemma send_error_plain w code s : plain_answer (send_error w code s).
Proof. split; [reflexivity|]. intros r H; inversion H; reflexivity. Qed.

(** [do_GET] hands over to [serve_file], or answers by itself: then it
    leaves the state alone, opens nothing, touches no process, and sends no
    cross-origin header. *)
Lemma do_GET_cases w req s :
  (exists filepath content_type cache,
     do_GET w req s = serve_file w filepath content_type cache s)
  \/ (exists r t,
        do_GET w req s = (Ret r, s, t)
        /\ opened t = [] /\ forallb inert t = true /\ header r CORS = None).
Proof.
  unfold do_GET.
  destruct (String.eqb (req_path req) "/project"); [left; eauto|].
  destruct (String.eqb (req_path req) "/" || String.eqb (req_path req) "/index.html").
  { destruct s as [[p|]]; [left|right].
    - exists (Py.path_join (STATIC_DIR w) "viewer.html"), "text/html", false.
      unfold bind, get_proc; cbn [ffmpeg_proc].
      rewrite serve_file_run. reflexivity.
    - do 2 eexists. repeat split. }
  destruct (Py.startswith "/hls/" (req_path req)).
  { destruct (Py.contains ".." (Py.drop 5 (req_path req))
              || Py.contains "/" (Py.drop 5 (req_path req)));
      [right; do 2 eexists; repeat split | left; eauto]. }
  right. destruct (String.eqb (req_path req) "/api/status").
  { unfold bind at 1. rewrite get_local_ip_run.
    destruct s as [[p|]]; do 2 eexists; repeat split. }
  destruct (String.eqb (req_path req) "/api/sources");
    do 2 eexists; repeat split.
Qed.

Lemma do_GET_plain w req s :
  (exists filepath content_type cache,
     do_GET w req s = serve_file w filepath content_type cache s)
  \/ plain_answer (do_GET w req s).
Proof.
  destruct (do_GET_cases w req s) as [H | (r & t & -> & Ho & _ & Hh)];
    [now left | right].
  split; [exact Ho|]. intros r' H; inversion H; subst; exact Hh.
Qed.

Lemma do_POST_plain w req s : plain_answer (do_POST w req s).
Proof.
  destruct (String.eqb (req_path req) "/api/start") eqn:Hstart.
  { apply String.eqb_eq in Hstart. rewrite (do_POST_start w req s Hstart).
    destruct (value_of (request_data w req s)) as [data|e];
      [|split; [reflexivity | discriminate]].
    destruct (method_get data "id" (PStr "3")) as [source_id|e];
      [|split; [reflexivity | discriminate]].
    pose proof (start_stream_opens_nothing w source_id 30 s) as Hopen.
    destruct (start_stream w source_id 30 s) as [[[[ok msg]|e] s1] t];
      unfold trace_of in Hopen; cbn [snd] in Hopen.
    - apply send_json_plain. now rewrite opened_app, Hopen.
    - split; [exact Hopen | discriminate]. }
  destruct (String.eqb (req_path req) "/api/stop") eqn:Hstop.
  { apply String.eqb_eq in Hstop. rewrite (do_POST_stop w req s Hstop).
    apply send_json_plain. now destruct (ffmpeg_proc s). }
  unfold do_POST. rewrite Hstart, Hstop. apply send_error_plain.
Qed.

(** C6, as the code has it.  A response carries
    [Access-Control-Allow-Origin: *] exactly when it is a 200 response with
    the content of a file the handler opened; every other response, so each
    JSON answer, the placeholder page and each 403 or 404, carries no
    [Access-Control-Allow-Origin] header at all. *)
Theorem cors_header_only_on_served_files
  (w : World) (m : method) (req : request) (s : state) (r : response) :
  value_of (handle w m req s) = Ret r ->
  (status r = 200 /\ opened (trace_of (handle w m req s)) <> [] ->
   header r "Access-Control-Allow-Origin" = Some "*")
  /\ (status r <> 200 \/ opened (trace_of (handle w m req s)) = [] ->
      header r "Access-Control-Allow-Origin" = None).
Proof.
  intros Hr.
  assert (plain_answer (handle w m req s) ->
          (status r = 200 /\ opened (trace_of (handle w m req s)) <> [] ->
           header r CORS = Some "*")
          /\ (status r <> 200 \/ opened (trace_of (handle w m req s)) = [] ->
              header r CORS = None)) as Hplain.
  { intros [Hopen Hnone]. split.
    - intros [_ Hne]. now contradiction Hne.
    - intros _. now apply Hnone. }
  destruct m; cbn [handle] in *; [|apply Hplain, do_POST_plain].
  destruct (do_GET_plain w req s) as [(fp & ct & c & Hserve)|Hp];
    [|now apply Hplain].
  rewrite Hserve in *. rewrite serve_file_opened.
  pose proof (serve_file_cors w fp ct c s r Hr) as Hcors.
  fold CORS. rewrite Hcors. split.
  - intros [Hs _]. now rewrite Hs.
  - intros [Hs|Hs]; [|discriminate Hs].
    destruct (Z.eqb_spec (status r) 200); [contradiction | reflexivity].
Qed.

Lemma cors_header_only_on_served_files_witness :
  header {| status := 200;
            headers := [ ("Server", "BaseHTTP/0.6 Python/3.12.0");
                         ("Date", "Wed, 04 Nov 2026 08:00:00 GMT");
                         ("Content-Type", "application/vnd.apple.mpegurl");
                         ("Content-Length", "7");
                         ("Cache-Control", "no-cache, no-store, must-revalidate");
                         ("Access-Control-Allow-Origin", "*") ];
            body := "#EXTM3U" |}
         "Access-Control-Allow-Origin" = Some "*".
Proof.
  apply (cors_header_only_on_served_files Sample.healthy GET
           (Sample.get "/hls/stream.m3u8") idle).
  - reflexivity.
  - split; [reflexivity | discriminate].
Defined.

(** C6, as stated, fails: the answer to GET [/api/status], the 403 of a
    traversal and the 404 of an unknown path carry no cross-origin header. *)
Lemma cors_header_missing_on_json_and_errors :
  ~ (forall w m req s r,
       value_of (handle w m req s) = Ret r ->
       header r "Access-Control-Allow-Origin" = Some "*")
  /\ (exists r, value_of (handle Sample.healthy GET (Sample.get "/api/status") idle)
                = Ret r
                /\ status r = 200
                /\ header r "Access-Control-Allow-Origin" = None)
  /\ (exists r, value_of (handle Sample.healthy GET (Sample.get "/hls/../x") idle)
                = Ret r
                /\ status r = 403
                /\ header r "Access-Control-Allow-Origin" = None)
  /\ (exists r, value_of (handle Sample.healthy GET (Sample.get "/hls/absent.ts") idle)
                = Ret r
                /\ status r = 404
                /\ header r "Access-Control-Allow-Origin" = None).
Proof.
  split; [|repeat split; eexists; repeat split].
  intros H.
  specialize (H Sample.healthy GET (Sample.get "/api/status") idle _ eq_refl).
  discriminate H.
Qed.

(** ** One session at a time, over any sequence of requests *)

Lemma sessions_after_app t1 t2 live :
  sessions_after (t1 ++ t2) live = sessions_after t2 (sessions_after t1 live).
Proof. revert live; induction t1 as [|e t1 IH]; intros live; simpl; auto. Qed.

Lemma peak_app t1 t2 live :
  peak (t1 ++ t2) live = Nat.max (peak t1 live) (peak t2 (sessions_after t1 live)).
Proof.
  revert live; induction t1 as [|e t1 IH]; intros live; simpl.
  - destruct t2; simpl; lia.
  - rewrite IH. lia.
Qed.

Lemma peak_start t live : (List.length live <= peak t live)%nat.
Proof. destruct t; simpl; lia. Qed.

Lemma inert_step e live : inert e = true -> step_sessions e live = live.
Proof. destruct e as [| | | | |? [?|]| | | | | | | | |]; simpl; congruence. Qed.

Lemma inert_sessions t live :
  forallb inert t = true -> sessions_after t live = live.
Proof.
  induction t as [|e t IH]; simpl; [reflexivity|].
  rewrite andb_true_iff. intros [He Ht]. now rewrite inert_step, IH.
Qed.

Lemma inert_peak t live : forallb inert t = true -> peak t live = List.length live.
Proof.
  induction t as [|e t IH]; simpl; [reflexivity|].
  rewrite andb_true_iff. intros [He Ht]. rewrite inert_step, IH by assumption. lia.
Qed.

Lemma rounds_inert k p : forallb inert (rounds k p) = true.
Proof. induction k as [|k IH]; simpl; auto. Qed.

Lemma remove_only p : remove Z.eq_dec p [p] = [].
Proof. simpl. destruct (Z.eq_dec p p); [reflexivity | contradiction]. Qed.

(** A prefix of a run holds no more sessions than the peak of the run. *)
Lemma peak_bounds_prefix t1 t2 live :
  (List.length (sessions_after t1 live) <= peak (t1 ++ t2) live)%nat.
Proof.
  rewrite peak_app. pose proof (peak_start t2 (sessions_after t1 live)). lia.
Qed.

Lemma tracked_idle live : tracked idle live -> live = [].
Proof. intros [H | (p & _ & H)]; [exact H | discriminate H]. Qed.

Lemma tracked_length s live : tracked s live -> (List.length live <= 1)%nat.
Proof. intros [-> | (p & -> & _)]; simpl; lia. Qed.

Lemma tracked_none s : tracked s [].
Proof. now left. Qed.

Lemma inert_run_sessions (s : state) t live :
  forallb inert t = true -> tracked s live ->
  (peak t live <= 1)%nat /\ tracked s (sessions_after t live).
Proof.
  intros Hi Ht. rewrite inert_peak, inert_sessions by exact Hi.
  split; [apply (tracked_length _ _ Ht) | exact Ht].
Qed.

Lemma failed_launch_inert w : forallb inert (failed_launch_events w) = true.
Proof.
  unfold failed_launch_events.
  destruct (hls_dir_exists w); [destruct (rmtree_error w)|]; reflexivity.
Qed.

Lemma launch_sessions w source_id framerate :
  sessions_after (launch_events w source_id framerate) [] = [spawn_pid w]
  /\ peak (launch_events w source_id framerate) [] = 1%nat.
Proof. unfold launch_events. destruct (hls_dir_exists w); split; reflexivity. Qed.

Lemma exit_sessions w p code :
  sessions_after (exit_events w p code) [p] = []
  /\ peak (exit_events w p code) [p] = 1%nat.
Proof.
  unfold exit_events; cbn [sessions_after peak step_sessions].
  rewrite remove_only. split; reflexivity.
Qed.

Lemma shutdown_sessions w p :
  sessions_after (shutdown_events w p) [p] = []
  /\ peak (shutdown_events w p) [p] = 1%nat.
Proof.
  unfold shutdown_events.
  destruct (communicate_stderr w); cbn [app sessions_after peak step_sessions];
    rewrite remove_only; split; reflexivity.
Qed.

(** [start_stream] keeps the account: never two sessions, and at its end the
    handle holds the session left, if any. *)
Lemma start_stream_sessions w source_id framerate s live :
  tracked s live ->
  (peak (trace_of (start_stream w source_id framerate s)) live <= 1)%nat
  /\ tracked (state_of (start_stream w source_id framerate s))
             (sessions_after (trace_of (start_stream w source_id framerate s)) live).
Proof.
  intros Ht. destruct (state_cases s) as [-> | [p ->]].
  - apply tracked_idle in Ht; subst live. rewrite start_stream_idle.
    destruct (launch_error w (ffmpeg_argv w source_id framerate)).
    { apply (inert_run_sessions idle);
        [apply failed_launch_inert | apply tracked_none]. }
    unfold polled_run.
    destruct (launch_sessions w source_id framerate) as [Hl Hlp].
    destruct (scan w POLL_ITERATIONS 0) as [k code|k|];
      unfold trace_of, state_of; cbn [fst snd];
      rewrite !peak_app, !sessions_after_app, Hl, Hlp,
        inert_peak, inert_sessions by apply rounds_inert.
    + destruct (exit_sessions w (spawn_pid w) code) as [-> ->].
      split; [simpl; lia | apply tracked_none].
    + split; [simpl; lia|]. right. now exists (spawn_pid w).
    + destruct (shutdown_sessions w (spawn_pid w)) as [-> ->].
      split; [simpl; lia | apply tracked_none].
  - rewrite start_stream_running. split; [apply (tracked_length _ _ Ht) | exact Ht].
Qed.

Lemma stop_stream_sessions w s live :
  tracked s live ->
  (peak (trace_of (stop_stream w s)) live <= 1)%nat
  /\ tracked (state_of (stop_stream w s))
             (sessions_after (trace_of (stop_stream w s)) live).
Proof.
  intros Ht. destruct (state_cases s) as [-> | [p ->]].
  - rewrite stop_stream_idle. split; [apply (tracked_length _ _ Ht) | exact Ht].
  - rewrite stop_stream_running. unfold trace_of, state_of; cbn [fst snd].
    destruct Ht as [-> | (q & -> & Hq)].
    + split; [simpl; lia | apply tracked_none].
    + inversion Hq; subst q. cbn [sessions_after peak step_sessions].
      rewrite remove_only. split; [simpl; lia | apply tracked_none].
Qed.

(** Every handler keeps the account. *)
Lemma handle_sessions w m req s live :
  tracked s live ->
  (peak (trace_of (handle w m req s)) live <= 1)%nat
  /\ tracked (state_of (handle w m req s))
             (sessions_after (trace_of (handle w m req s)) live).
Proof.
  intros Ht. destruct m; cbn [handle].
  - destruct (do_GET_cases w req s)
      as [(fp & ct & c & ->) | (r & t & -> & _ & Hi & _)].
    + rewrite serve_file_run. now apply inert_run_sessions.
    + now apply inert_run_sessions.
  - destruct (String.eqb (req_path req) "/api/start") eqn:Hstart.
    { apply String.eqb_eq in Hstart. rewrite (do_POST_start w req s Hstart).
      destruct (value_of (request_data w req s)) as [data|e];
        [|now apply inert_run_sessions].
      destruct (method_get data "id" (PStr "3")) as [source_id|e];
        [|now apply inert_run_sessions].
      pose proof (start_stream_sessions w source_id 30 s live Ht) as [Hp Hs].
      destruct (start_stream w source_id 30 s) as [[[[ok msg]|e] s1] t];
        unfold trace_of, state_of in *; cbn [fst snd] in *; [|now split].
      rewrite peak_app, sessions_after_app. simpl.
      pose proof (tracked_length _ _ Hs). split; [lia | exact Hs]. }
    destruct (String.eqb (req_path req) "/api/stop") eqn:Hstop.
    { apply String.eqb_eq in Hstop. rewrite (do_POST_stop w req s Hstop).
      pose proof (stop_stream_sessions w s live Ht) as H.
      destruct (state_cases s) as [-> | [p ->]];
        rewrite ?stop_stream_idle, ?stop_stream_running in H; exact H. }
    unfold do_POST. rewrite Hstart, Hstop. now apply inert_run_sessions.
Qed.

Lemma serve_sessions reqs s live :
  tracked s live ->
  (peak (events_of (snd (serve reqs s))) live <= 1)%nat
  /\ tracked (fst (serve reqs s))
             (sessions_after (events_of (snd (serve reqs s))) live).
Proof.
  revert s live; induction reqs as [|[[w m] req] reqs IH]; intros s live Ht.
  - simpl. split; [apply (tracked_length _ _ Ht) | exact Ht].
  - cbn [serve].
    pose proof (handle_sessions w m req s live Ht) as [Hp Hs].
    destruct (handle w m req s) as [[r s1] t];
      unfold trace_of, state_of in *; cbn [fst snd] in *.
    specialize (IH s1 _ Hs).
    destruct (serve reqs s1) as [s2 out]. cbn [fst snd] in *.
    unfold events_of in *. cbn [map concat snd].
    rewrite peak_app, sessions_after_app. destruct IH as [IHp IHs].
    split; [lia | exact IHs].
Qed.

(** At most one capture session at any time.  Over any sequence of requests
    served from the idle state, in any worlds, at no point of the run are
    there two capture processes launched and not disposed of; and when the
    run ends the handle holds the one that is left, if any. *)
Theorem one_session_at_any_time (reqs : list (World * method * request)) :
  (forall before after,
     events_of (snd (serve reqs idle)) = (before ++ after)%list ->
     (List.length (sessions_after before []) <= 1)%nat)
  /\ tracked (fst (serve reqs idle))
             (sessions_after (events_of (snd (serve reqs idle))) []).
Proof.
  destruct (serve_sessions reqs idle [] (tracked_none idle)) as [Hp Hs].
  split; [|exact Hs].
  intros before after Hsplit. rewrite Hsplit in Hp.
  pose proof (peak_bounds_prefix before after []). lia.
Qed.

(** ** The viewer page and the segment files *)

Lemma do_GET_hls w hs rfile filename s :
  Py.contains ".." filename || Py.contains "/" filename = false ->
  do_GET w {| req_path := "/hls/" ++ filename;
              req_headers := hs; req_rfile := rfile |} s
  = serve_file w (Py.path_join HLS_DIR filename)
      (dict_get MIME_TYPES (Py.splitext_ext filename) "application/octet-stream")
      (String.eqb (Py.splitext_ext filename) ".ts") s.
Proof. intros H. unfold do_GET. cbn. now rewrite H. Qed.

(** The page at [/] follows the session: the placeholder, with no file
    opened, while there is none; the viewer file while there is one.  So a
    start that succeeds turns the page into the viewer, and a stop turns it
    back. *)
Theorem viewer_page_follows_session
  (w w1 w2 : World) (req : request) (source_id : pyval) (framerate : Z) (s : state) :
  req_path req = "/" \/ req_path req = "/index.html" ->
  (ffmpeg_proc s = None ->
   exists r, do_GET w req s = (Ret r, s, [])
             /\ status r = 200 /\ body r = PLACEHOLDER_PAGE)
  /\ (ffmpeg_proc s <> None ->
      do_GET w req s
      = serve_file w (Py.path_join (STATIC_DIR w) "viewer.html") "text/html" false s)
  /\ (forall msg,
        value_of (start_stream w1 source_id framerate s) = Ret (true, msg) ->
        ffmpeg_proc (state_of (start_stream w1 source_id framerate s)) <> None)
  /\ ffmpeg_proc (state_of (stop_stream w2 s)) = None.
Proof.
  intros Hpath.
  assert (String.eqb (req_path req) "/project" = false
          /\ String.eqb (req_path req) "/" || String.eqb (req_path req) "/index.html"
             = true) as [Hp Hr].
  { destruct Hpath as [-> | ->]; split; reflexivity. }
  split; [|split; [|split]].
  - intros Hs. destruct s as [[p|]]; [discriminate Hs|].
    unfold do_GET. rewrite Hp, Hr. eexists. repeat split.
  - intros Hs. destruct s as [[p|]]; [|now contradiction Hs].
    unfold do_GET. rewrite Hp, Hr. unfold bind, get_proc; cbn [ffmpeg_proc].
    rewrite serve_file_run. reflexivity.
  - intros msg. destruct (state_cases s) as [-> | [p ->]].
    + rewrite start_stream_idle.
      destruct (launch_error w1 (ffmpeg_argv w1 source_id framerate));
        [discriminate|].
      unfold polled_run.
      destruct (scan w1 POLL_ITERATIONS 0); cbn; intros H; discriminate.
    + rewrite start_stream_running. discriminate.
  - destruct (state_cases s) as [-> | [p ->]];
      rewrite ?stop_stream_idle, ?stop_stream_running; reflexivity.
Qed.

Lemma viewer_page_follows_session_witness :
  do_GET Sample.healthy (Sample.get "/")
         (state_of (start_stream Sample.healthy (PStr "1") 30 idle))
  = serve_file Sample.healthy "/opt/projector/viewer.html" "text/html" false
      (state_of (start_stream Sample.healthy (PStr "1") 30 idle)).
Proof.
  apply (proj1 (proj2 (viewer_page_follows_session Sample.healthy Sample.healthy
                         Sample.healthy (Sample.get "/") (PStr "1") 30
                         (state_of (start_stream Sample.healthy (PStr "1") 30 idle))
                         (or_introl eq_refl)))).
  discriminate.
Defined.

(** A segment file that is served (its name a single path component) gets
    its content type from its extension, [application/octet-stream] for an
    unknown one, and may be cached, for 60 s, exactly when the extension is
    [.ts]; the manifest, like every other file, is marked not to be
    cached. *)
Theorem segment_type_and_cache_policy
  (w : World) (hs : list (string * string)) (rfile filename : string)
  (s : state) (r : response) :
  Py.contains ".." filename || Py.contains "/" filename = false ->
  value_of (do_GET w {| req_path := "/hls/" ++ filename;
                        req_headers := hs; req_rfile := rfile |} s) = Ret r ->
  status r = 200 ->
  header r "Content-Type"
  = Some (dict_get MIME_TYPES (Py.splitext_ext filename) "application/octet-stream")
  /\ header r "Cache-Control"
     = Some (if String.eqb (Py.splitext_ext filename) ".ts" then "max-age=60"
             else "no-cache, no-store, must-revalidate")
  /\ fs_open w (Py.path_join HLS_DIR filename) = Ret (body r).
Proof.
  intros Hsafe. rewrite (do_GET_hls w hs rfile filename s Hsafe), serve_file_run.
  unfold value_of; cbn [fst].
  destruct (fs_open w (Py.path_join HLS_DIR filename)) as [content|[]];
    intros H Hs; inversion H; subst r; try discriminate Hs.
  repeat split.
Qed.

Lemma segment_type_and_cache_policy_witness :
  header {| status := 200;
            headers := [ ("Server", "BaseHTTP/0.6 Python/3.12.0");
                         ("Date", "Wed, 04 Nov 2026 08:00:00 GMT");
                         ("Content-Type", "application/vnd.apple.mpegurl");
                         ("Content-Length", "7");
                         ("Cache-Control", "no-cache, no-store, must-revalidate");
                         ("Access-Control-Allow-Origin", "*") ];
            body := "#EXTM3U" |} "Content-Type"
  = Some "application/vnd.apple.mpegurl".
Proof.
  apply (segment_type_and_cache_policy Sample.healthy [] "" "stream.m3u8" idle);
    reflexivity.
Defined.

(** ** The device listing *)

Section DeviceListing.

Import Devices.
Local Arguments is_digit : simpl never.
Local Arguments is_linebreak : simpl never.

Lemma append_assoc (a b c : string) : (a ++ b) ++ c = a ++ b ++ c.
Proof. induction a as [|x a IH]; simpl; now rewrite ?IH. Qed.

Lemma append_length (a b : string) :
  String.length (a ++ b) = (String.length a + String.length b)%nat.
Proof. induction a as [|x a IH]; simpl; now rewrite ?IH. Qed.

Lemma span_digits_spec s run rest :
  span_digits s = (run, rest) ->
  s = run ++ rest /\ all_digits run = true /\ no_digit_head rest = true.
Proof.
  revert run rest; induction s as [|c s IH]; intros run rest; simpl.
  - intros H; inversion H; auto.
  - destruct (is_digit c) eqn:Hc.
    + destruct (span_digits s) as [run' rest'] eqn:Hs. intros H; inversion H; subst.
      destruct (IH run' rest eq_refl) as (-> & Hd & Hr).
      simpl. rewrite Hc. auto.
    + intros H; inversion H; subst. simpl. rewrite Hc. auto.
Qed.

Lemma span_digits_app run rest :
  all_digits run = true -> no_digit_head rest = true ->
  span_digits (run ++ rest) = (run, rest).
Proof.
  induction run as [|c run IH]; simpl; intros Hd Hr.
  - destruct rest as [|c rest]; [reflexivity|]. simpl in *.
    destruct (is_digit c); [discriminate Hr | reflexivity].
  - apply andb_true_iff in Hd as [Hc Hd]. now rewrite Hc, IH.
Qed.

Lemma number_spec s : number s = true <-> s <> "" /\ all_digits s = true.
Proof.
  unfold number. rewrite andb_true_iff, negb_true_iff, String.eqb_neq. tauto.
Qed.

(** The match at the head of a string is the pattern read off that string:
    a bracket, a number, the literal, a number, and no digit after it. *)
Lemma match_at_spec s id n :
  match_at s = Some (id, n) <->
  exists post,
    s = "[" ++ id ++ CAPTURE ++ n ++ post
    /\ number id = true /\ number n = true /\ no_digit_head post = true.
Proof.
  split.
  - destruct s as [|c s1]; [discriminate|]. unfold match_at.
    destruct (Ascii.eqb_spec c "[") as [->|]; [|discriminate].
    destruct (span_digits s1) as [a r1] eqn:H1.
    destruct (String.eqb_spec a ""); [discriminate|].
    destruct (Py.startswith CAPTURE r1) eqn:Hlit; [|discriminate].
    apply startswith_spec in Hlit as [r2 ->].
    change (Py.drop 17 (CAPTURE ++ r2)) with r2.
    destruct (span_digits r2) as [b post] eqn:H2.
    destruct (String.eqb_spec b ""); [discriminate|].
    intros H; inversion H; subst a b.
    apply span_digits_spec in H1 as (-> & Hd1 & _).
    apply span_digits_spec in H2 as (-> & Hd2 & Hpost).
    exists post. rewrite !number_spec. auto.
  - intros (post & -> & Hid & Hn & Hpost).
    apply number_spec in Hid as [Hid Hdid]. apply number_spec in Hn as [Hn Hdn].
    cbn [match_at append Ascii.eqb Bool.eqb].
    rewrite (span_digits_app id (CAPTURE ++ n ++ post)) by auto.
    apply String.eqb_neq in Hid, Hn. rewrite Hid.
    replace (Py.startswith CAPTURE (CAPTURE ++ n ++ post)) with true
      by (symmetry; apply startswith_spec; eauto).
    change (Py.drop 17 (CAPTURE ++ n ++ post)) with (n ++ post).
    now rewrite (span_digits_app n post), Hn by auto.
Qed.

Lemma re_search_sound line id n :
  re_search line = Some (id, n) ->
  exists pre post,
    line = pre ++ "[" ++ id ++ CAPTURE ++ n ++ post
    /\ number id = true /\ number n = true /\ no_digit_head post = true.
Proof.
  induction line as [|c line IH]; cbn [re_search].
  - destruct (match_at "") eqn:H; [discriminate H | discriminate].
  - destruct (match_at (String c line)) as [[a b]|] eqn:Hm.
    + intros H; inversion H; subst a b.
      apply match_at_spec in Hm as (post & Hs & Hrest).
      exists "", post. now rewrite Hs.
    + intros H. destruct (IH H) as (pre & post & -> & Hrest).
      now exists (String c pre), post.
Qed.

(** A line without the literal matches nowhere. *)
Lemma re_search_none line :
  Py.contains CAPTURE line = false -> re_search line = None.
Proof.
  intros Hc. destruct (re_search line) as [[id n]|] eqn:H; [|reflexivity].
  apply re_search_sound in H as (pre & post & -> & _).
  assert (Py.contains CAPTURE (pre ++ "[" ++ id ++ CAPTURE ++ n ++ post) = true) as Ht.
  { apply contains_spec. exists (pre ++ "[" ++ id), (n ++ post).
    now rewrite !append_assoc. }
  congruence.
Qed.

(** A calm prefix holds no match and hides none. *)
Lemma re_search_calm pre rest :
  calm pre = true -> no_digit_head rest = true ->
  re_search (pre ++ rest) = re_search rest.
Proof.
  induction pre as [|c pre IH]; [reflexivity|]. cbn [calm append].
  rewrite andb_true_iff. intros [Hc Hcalm] Hrest.
  assert (match_at (String c (pre ++ rest)) = None) as Hm.
  { unfold match_at. destruct (Ascii.eqb c "["); [|reflexivity].
    simpl in Hc.
    assert (span_digits (pre ++ rest) = ("", pre ++ rest)) as ->.
    { destruct pre as [|c' pre]; simpl in *.
      - destruct rest as [|c' rest]; [reflexivity|]. simpl in *.
        destruct (is_digit c'); [discriminate Hrest | reflexivity].
      - destruct (is_digit c'); [discriminate Hc | reflexivity]. }
    reflexivity. }
  cbn [re_search]. rewrite Hm. now apply IH.
Qed.

Lemma re_search_screen_line pre id n post :
  calm pre = true -> number id = true -> number n = true ->
  no_digit_head post = true ->
  re_search (pre ++ "[" ++ id ++ CAPTURE ++ n ++ post) = Some (id, n).
Proof.
  intros Hpre Hid Hn Hpost. rewrite re_search_calm by auto.
  assert (match_at ("[" ++ id ++ CAPTURE ++ n ++ post) = Some (id, n)) as Hm
    by (apply match_at_spec; eauto).
  cbn [re_search append] in *. now rewrite Hm.
Qed.

Lemma split_raw_nonempty after_cr s : split_raw after_cr s <> [].
Proof.
  revert after_cr; induction s as [|c s IH]; intros after_cr; simpl; [discriminate|].
  destruct (after_cr && Ascii.eqb c LF); [apply IH|].
  destruct (is_linebreak c); [discriminate|].
  destruct (split_raw false s); discriminate.
Qed.

Lemma split_raw_line l rest :
  no_breaks l = true ->
  split_raw false (l ++ String LF rest) = l :: split_raw false rest.
Proof.
  induction l as [|c l IH]; [reflexivity|]. cbn [no_breaks append split_raw andb].
  rewrite andb_true_iff, negb_true_iff. intros [-> Hl]. now rewrite IH.
Qed.

Lemma drop_last_empty_cons l ls :
  ls <> [] -> drop_last_empty (l :: ls) = l :: drop_last_empty ls.
Proof. destruct ls; [congruence | reflexivity]. Qed.

Lemma no_breaks_app a b : no_breaks (a ++ b) = no_breaks a && no_breaks b.
Proof. induction a as [|c a IH]; simpl; now rewrite ?IH, ?andb_assoc. Qed.

Lemma digit_is_no_break c : is_digit c = true -> is_linebreak c = false.
Proof.
  destruct c as [[] [] [] [] [] [] [] []]; intros H;
    solve [reflexivity | discriminate H].
Qed.

Lemma digits_have_no_breaks s : all_digits s = true -> no_breaks s = true.
Proof.
  induction s as [|c s IH]; [reflexivity|]. simpl.
  rewrite andb_true_iff. intros [Hc Hs]. now rewrite (digit_is_no_break c Hc), IH.
Qed.

Lemma well_formed_no_breaks l : well_formed l = true -> no_breaks (line_text l) = true.
Proof.
  destruct l as [pre id n post|text]; unfold well_formed, line_text;
    rewrite !andb_true_iff.
  - intros (((((Hpre & _) & Hid) & Hn) & Hpost) & _).
    apply number_spec in Hid as [_ Hid]. apply number_spec in Hn as [_ Hn].
    rewrite !no_breaks_app, Hpre, Hpost,
      (digits_have_no_breaks id Hid), (digits_have_no_breaks n Hn).
    reflexivity.
  - tauto.
Qed.

Lemma well_formed_search l :
  well_formed l = true ->
  re_search (line_text l)
  = match l with
    | ScreenLine _ id n _ => Some (id, n)
    | OtherLine _ => None
    end.
Proof.
  destruct l as [pre id n post|text]; unfold well_formed, line_text;
    rewrite !andb_true_iff.
  - intros (((((_ & Hpre) & Hid) & Hn) & _) & Hpost).
    now apply re_search_screen_line.
  - rewrite negb_true_iff. intros [_ Hc]. now apply re_search_none.
Qed.

Lemma splitlines_render ls :
  forallb well_formed ls = true -> splitlines (render ls) = map line_text ls.
Proof.
  unfold splitlines. induction ls as [|l ls IH]; [reflexivity|].
  cbn [forallb render map]. rewrite andb_true_iff. intros [Hl Hls].
  rewrite split_raw_line by now apply well_formed_no_breaks.
  rewrite drop_last_empty_cons by apply split_raw_nonempty.
  now rewrite IH.
Qed.

Lemma collect_render ls :
  forallb well_formed ls = true -> collect (map line_text ls) = screens_of ls.
Proof.
  induction ls as [|l ls IH]; [reflexivity|].
  cbn [forallb map collect]. rewrite andb_true_iff. intros [Hl Hls].
  rewrite (well_formed_search l Hl), (IH Hls). now destruct l.
Qed.

Lemma collect_In lines v :
  In v (collect lines) ->
  exists line groups,
    In line lines /\ re_search line = Some groups /\ v = screen_entry groups.
Proof.
  induction lines as [|line lines IH]; simpl; [contradiction|].
  destruct (re_search line) as [groups|] eqn:Hs.
  - intros [<- | Hin].
    + exists line, groups. auto.
    + destruct (IH Hin) as (l & g & Hl & Hg & Hv). exists l, g. auto.
  - intros Hin. destruct (IH Hin) as (l & g & Hl & Hg & Hv). exists l, g. auto.
Qed.

Lemma collect_length lines : (List.length (collect lines) <= List.length lines)%nat.
Proof.
  induction lines as [|line lines IH]; simpl; [lia|].
  destruct (re_search line); simpl; lia.
Qed.

Lemma do_GET_sources w req s :
  req_path req = "/api/sources" ->
  do_GET w req s
  = (value_of (send_json w (PDict [("screens", PList (screens w))]) s),
     s, [EListDevices]).
Proof. intros Hpath. unfold do_GET. now rewrite Hpath. Qed.

(** Every entry [list_screens] builds is a screen read off one line of the
    listing: the line holds a bracketed number, the literal
    [] Capture screen ] and a number; the entry has the first number as
    [id], [Screen ] and the second number as [name], and the type [screen].
    No line gives two entries. *)
Theorem parsed_screens_come_from_screen_lines (stderr : string) :
  (forall v,
     In v (parse_screens stderr) ->
     exists line pre id n post,
       In line (splitlines stderr)
       /\ line = pre ++ "[" ++ id ++ "] Capture screen " ++ n ++ post
       /\ number id = true /\ number n = true
       /\ v = PDict [ ("id", PStr id); ("name", PStr ("Screen " ++ n));
                      ("type", PStr "screen") ])
  /\ (List.length (parse_screens stderr) <= List.length (splitlines stderr))%nat.
Proof.
  split; [|apply collect_length].
  intros v Hin. apply collect_In in Hin as (line & [id n] & Hl & Hs & ->).
  apply re_search_sound in Hs as (pre & post & -> & Hid & Hn & _).
  exists (pre ++ "[" ++ id ++ CAPTURE ++ n ++ post), pre, id, n, post. auto.
Qed.

(** Printing and parsing a listing.  For a listing whose screen lines have a
    log prefix with no bracketed number, and whose other lines (cameras,
    microphones, headings) lack the literal [] Capture screen ],
    [list_screens] returns the screens of the screen lines, in order, and
    nothing for the other lines; GET [/api/sources] answers them as
    [{"screens": [...]}] and leaves the session alone. *)
Theorem listing_round_trip (ls : list listing_line) :
  forallb well_formed ls = true ->
  parse_screens (render ls) = screens_of ls
  /\ (forall w req s,
        req_path req = "/api/sources" ->
        screens w = parse_screens (render ls) ->
        exists r,
          do_GET w req s = (Ret r, s, [EListDevices])
          /\ status r = 200
          /\ body r = json_dumps w (PDict [("screens", PList (screens_of ls))])).
Proof.
  intros Hwf.
  assert (parse_screens (render ls) = screens_of ls) as Hparse.
  { unfold parse_screens. now rewrite splitlines_render, collect_render. }
  split; [exact Hparse|].
  intros w req s Hpath Hw. rewrite (do_GET_sources w req s Hpath), Hw, Hparse.
  eexists. repeat split.
Qed.

Lemma listing_round_trip_witness :
  parse_screens (render sample_listing)
  = [ PDict [("id", PStr "1"); ("name", PStr "Screen 0"); ("type", PStr "screen")];
      PDict [("id", PStr "2"); ("name", PStr "Screen 1"); ("type", PStr "screen")] ].
Proof.
  apply (proj1 (listing_round_trip sample_listing eq_refl)).
Defined.

End DeviceListing.

(** ** The GET routes, one by one *)

Lemma path_join_child f :
  Py.contains "/" f = false -> Py.path_join HLS_DIR f = HLS_DIR ++ "/" ++ f.
Proof.
  intros Hc. unfold Py.path_join.
  assert (Py.startswith "/" f = false) as ->.
  { destruct f as [|c f]; [reflexivity|]. cbn [Py.contains] in Hc.
    now apply orb_false_iff in Hc as [-> _]. }
  reflexivity.
Qed.

Lemma startswith_drop p s :
  Py.startswith p s = true -> s = p ++ Py.drop (String.length p) s.
Proof.
  intros H. apply startswith_spec in H as [rest ->]. f_equal.
  induction p as [|c p IH]; [reflexivity | exact IH].
Qed.

(** What [do_GET] does, route by route. *)
Lemma do_GET_routes w req s :
  (req_path req = "/project"
   /\ do_GET w req s
      = serve_file w (Py.path_join (STATIC_DIR w) "control.html") "text/html" false s)
  \/ ((req_path req = "/" \/ req_path req = "/index.html")
      /\ ffmpeg_proc s <> None
      /\ do_GET w req s
         = serve_file w (Py.path_join (STATIC_DIR w) "viewer.html") "text/html" false s)
  \/ ((req_path req = "/" \/ req_path req = "/index.html")
      /\ ffmpeg_proc s = None
      /\ do_GET w req s
         = (Ret {| status := 200;
                   headers := response_start w ++
                     [ ("Content-Type", "text/html");
                       ("Content-Length", Py.str_int (Py.len PLACEHOLDER_PAGE)) ];
                   body := PLACEHOLDER_PAGE |}, s, []))
  \/ (exists f,
        req_path req = "/hls/" ++ f
        /\ Py.contains ".." f || Py.contains "/" f = true
        /\ do_GET w req s = send_error w 403 s)
  \/ (exists f,
        req_path req = "/hls/" ++ f
        /\ Py.contains ".." f = false /\ Py.contains "/" f = false
        /\ do_GET w req s
           = serve_file w (HLS_DIR ++ "/" ++ f)
               (dict_get MIME_TYPES (Py.splitext_ext f) "application/octet-stream")
               (String.eqb (Py.splitext_ext f) ".ts") s)
  \/ (req_path req = "/api/status"
      /\ do_GET w req s
         = (value_of (send_json w (PDict
              [ ("running", PBool (match ffmpeg_proc s with
                                   | Some _ => true | None => false end));
                ("ip", PStr (local_ip w));
                ("viewer_url", match ffmpeg_proc s with
                               | Some _ => PStr (viewer_url (local_ip w))
                               | None => PNone
                               end) ]) s),
            s, [EConnect "8.8.8.8" 80]))
  \/ (req_path req = "/api/sources"
      /\ do_GET w req s
         = (value_of (send_json w (PDict [("screens", PList (screens w))]) s),
            s, [EListDevices]))
  \/ (~ In (req_path req) GET_ROUTES
      /\ Py.startswith "/hls/" (req_path req) = false
      /\ do_GET w req s = send_error w 404 s).
Proof.
  unfold do_GET.
  destruct (String.eqb_spec (req_path req) "/project") as [H1|H1]; [now left|].
  right.
  destruct (String.eqb_spec (req_path req) "/") as [H2|H2].
  { destruct s as [[p|]]; [left | right; left]; cbn [orb].
    - repeat split; auto; [discriminate|].
      unfold bind, get_proc; cbn [ffmpeg_proc]. now rewrite serve_file_run.
    - repeat split; auto. }
  destruct (String.eqb_spec (req_path req) "/index.html") as [H3|H3].
  { destruct s as [[p|]]; [left | right; left]; cbn [orb].
    - repeat split; auto; [discriminate|].
      unfold bind, get_proc; cbn [ffmpeg_proc]. now rewrite serve_file_run.
    - repeat split; auto. }
  cbn [orb]. do 2 right.
  destruct (Py.startswith "/hls/" (req_path req)) eqn:H4.
  { apply startswith_drop in H4. cbn [String.length] in H4.
    destruct (Py.contains ".." (Py.drop 5 (req_path req))
              || Py.contains "/" (Py.drop 5 (req_path req))) eqn:H5.
    - left. now exists (Py.drop 5 (req_path req)).
    - right; left. exists (Py.drop 5 (req_path req)).
      apply orb_false_iff in H5 as [H5 H6].
      now rewrite <- (path_join_child _ H6). }
  do 2 right.
  destruct (String.eqb_spec (req_path req) "/api/status") as [H5|H5].
  { left. split; [exact H5|]. unfold bind at 1. rewrite get_local_ip_run.
    now destruct s as [[p|]]. }
  right.
  destruct (String.eqb_spec (req_path req) "/api/sources") as [H6|H6]; [now left|].
  right. repeat split. simpl. intuition congruence.
Qed.

Lemma send_json_framed w data s r :
  value_of (send_json w data s) = Ret r -> framed r /\ status r = 200.
Proof.
  intros H; inversion H. repeat split. discriminate.
Qed.

Lemma send_error_framed w code s r :
  value_of (send_error w code s) = Ret r -> framed r /\ status r = code.
Proof.
  intros H; inversion H. repeat split. discriminate.
Qed.

Lemma serve_file_framed w filepath content_type cache s r :
  value_of (serve_file w filepath content_type cache s) = Ret r ->
  framed r /\ (status r = 200 \/ status r = 404).
Proof.
  rewrite serve_file_run. unfold value_of; cbn [fst].
  destruct (fs_open w filepath) as [content|[]]; intros H; inversion H;
    (split; [split; [reflexivity | discriminate] | auto]).
Qed.

(** What a GET does to the world: nothing, or one of a file opened, the
    address probe, the device listing; and nothing to the handle. *)
Lemma do_GET_effects w req s :
  state_of (do_GET w req s) = s
  /\ (trace_of (do_GET w req s) = []
      \/ (exists path, trace_of (do_GET w req s) = [EOpen path])
      \/ trace_of (do_GET w req s) = [EConnect "8.8.8.8" 80]
      \/ trace_of (do_GET w req s) = [EListDevices]).
Proof.
  destruct (do_GET_routes w req s)
    as [[_ ->] | [(_ & _ & ->) | [(_ & _ & ->) | [(f & _ & _ & ->)
       | [(f & _ & _ & _ & ->) | [[_ ->] | [[_ ->] | (_ & _ & ->)]]]]]]];
    rewrite ?serve_file_run; (split; [reflexivity|]);
    first [ left; reflexivity
          | right; left; eexists; reflexivity
          | right; right; left; reflexivity
          | right; right; right; reflexivity ].
Qed.

(** The listing run is made for [/api/sources], and for no other path. *)
Lemma do_GET_listing w req s :
  In EListDevices (trace_of (do_GET w req s)) <-> req_path req = "/api/sources".
Proof.
  split.
  - destruct (do_GET_routes w req s)
      as [[_ ->] | [(_ & _ & ->) | [(_ & _ & ->) | [(f & _ & _ & ->)
         | [(f & _ & _ & _ & ->) | [[_ ->] | [[Hp _] | (_ & _ & ->)]]]]]]];
      rewrite ?serve_file_run; trivial;
      unfold trace_of; cbn [snd send_error]; intros H;
      repeat (destruct H as [H | H]; [discriminate H|]); contradiction H.
  - intros Hp. rewrite (do_GET_sources w req s Hp). now left.
Qed.

Lemma do_GET_viewer_calls w req s :
  forallb viewer_call (trace_of (do_GET w req s)) = true.
Proof.
  destruct (do_GET_effects w req s) as [_ [-> | [[path ->] | [-> | ->]]]];
    reflexivity.
Qed.

(** Viewers cannot disturb the stream.  Whatever GET requests are served,
    in whatever worlds, the session handle stays as it was, and the only
    calls made outside the interpreter are opening a file, the address probe
    and the device listing (the run of ffmpeg by [list_screens], over when
    it returns); the listing is run exactly when one of the requests asks
    for [/api/sources].  So the capture process is not launched, polled,
    killed or sent [terminate]. *)
Theorem get_requests_leave_the_session_alone
  (reqs : list (World * method * request)) (s : state) :
  (forall w m req, In (w, m, req) reqs -> m = GET) ->
  fst (serve reqs s) = s
  /\ forallb viewer_call (events_of (snd (serve reqs s))) = true
  /\ (In EListDevices (events_of (snd (serve reqs s)))
      <-> exists w req, In (w, GET, req) reqs /\ req_path req = "/api/sources").
Proof.
  induction reqs as [|[[w m] req] reqs IH]; intros Hget.
  { repeat split; [contradiction | intros (w & req & [] & _)]. }
  assert (m = GET) as -> by (apply (Hget w m req); now left).
  cbn [serve handle].
  pose proof (do_GET_effects w req s) as [Hs _].
  pose proof (do_GET_viewer_calls w req s) as Hv.
  pose proof (do_GET_listing w req s) as Hl.
  destruct (do_GET w req s) as [[r s1] t]; unfold state_of, trace_of in *;
    cbn [fst snd] in *; subst s1.
  destruct IH as (IHs & IHv & IHl).
  { intros w' m' req' Hin. apply (Hget w' m' req'). now right. }
  destruct (serve reqs s) as [s2 out]; cbn [fst snd] in *.
  unfold events_of in *; cbn [map concat snd].
  split; [exact IHs|]. split.
  - rewrite forallb_app, Hv, IHv. reflexivity.
  - rewrite in_app_iff, Hl, IHl. split.
    + intros [Hp | (w' & req' & Hin & Hp)].
      * exists w, req. split; [now left | exact Hp].
      * exists w', req'. split; [now right | exact Hp].
    + intros (w' & req' & [Heq | Hin] & Hp).
      * inversion Heq; subst. now left.
      * right. now exists w', req'.
Qed.

Lemma get_requests_leave_the_session_alone_witness :
  fst (serve [ (Sample.healthy, GET, Sample.get "/");
               (Sample.offline, GET, Sample.get "/hls/stream.m3u8");
               (Sample.healthy, GET, Sample.get "/api/sources");
               (Sample.healthy, GET, Sample.get "/api/stop") ] (running 7))
  = running 7.
Proof.
  apply (get_requests_leave_the_session_alone
           [ (Sample.healthy, GET, Sample.get "/");
             (Sample.offline, GET, Sample.get "/hls/stream.m3u8");
             (Sample.healthy, GET, Sample.get "/api/sources");
             (Sample.healthy, GET, Sample.get "/api/stop") ] (running 7)).
  intros w m req [H | [H | [H | [H | []]]]]; now inversion H.
Defined.

(** The files the server reads.  Every path a request makes the handler
    open is the control page, the viewer page, or the segment directory
    followed by one separator and a name: the rest of the request path after
    [/hls/], which holds neither [/] nor [..].  A POST opens no file. *)
Theorem opened_files_are_confined
  (w : World) (m : method) (req : request) (s : state) :
  (forall path,
     In path (opened (trace_of (handle w m req s))) ->
     m = GET
     /\ (path = Py.path_join (STATIC_DIR w) "control.html"
         \/ path = Py.path_join (STATIC_DIR w) "viewer.html"
         \/ exists name,
              path = HLS_DIR ++ "/" ++ name
              /\ req_path req = "/hls/" ++ name
              /\ ~ has_substring "/" name
              /\ ~ has_substring ".." name))
  /\ opened (trace_of (handle w POST req s)) = [].
Proof.
  split; [|exact (proj1 (do_POST_plain w req s))].
  intros path. destruct m; cbn [handle].
  - intros Hin. split; [reflexivity|]. revert Hin.
    destruct (do_GET_routes w req s)
      as [[_ ->] | [(_ & _ & ->) | [(_ & _ & ->) | [(f & _ & _ & ->)
         | [(f & Hp & Hdots & Hsep & ->) | [[_ ->] | [[_ ->] | (_ & _ & ->)]]]]]]];
      rewrite ?serve_file_opened; cbn; try tauto.
    + intros [<- | []]. now left.
    + intros [<- | []]. right; left. reflexivity.
    + intros [<- | []]. do 2 right. exists f.
      rewrite <- !contains_spec, Hdots, Hsep. repeat split; auto; discriminate.
  - destruct (do_POST_plain w req s) as [-> _]. contradiction.
Qed.

Lemma opened_files_are_confined_witness :
  GET = GET
  /\ ("/tmp/projector-stream/stream.m3u8" = Py.path_join "/opt/projector" "control.html"
      \/ "/tmp/projector-stream/stream.m3u8"
         = Py.path_join "/opt/projector" "viewer.html"
      \/ exists name,
           "/tmp/projector-stream/stream.m3u8" = HLS_DIR ++ "/" ++ name
           /\ "/hls/stream.m3u8" = "/hls/" ++ name
           /\ ~ has_substring "/" name
           /\ ~ has_substring ".." name).
Proof.
  apply (proj1 (opened_files_are_confined Sample.healthy GET
                  (Sample.get "/hls/stream.m3u8") idle)).
  now left.
Defined.

(** Every answer can be framed.  A response of the handler has status 200,
    403 or 404, names its content type, and announces as [Content-Length]
    the length of the body it writes. *)
Theorem responses_are_framed
  (w : World) (m : method) (req : request) (s : state) (r : response) :
  value_of (handle w m req s) = Ret r ->
  header r "Content-Length" = Some (Py.str_int (Py.len (body r)))
  /\ header r "Content-Type" <> None
  /\ (status r = 200 \/ status r = 403 \/ status r = 404).
Proof.
  assert (forall code, framed r /\ status r = code ->
                       code = 200 \/ code = 403 \/ code = 404 ->
                       header r "Content-Length" = Some (Py.str_int (Py.len (body r)))
                       /\ header r "Content-Type" <> None
                       /\ (status r = 200 \/ status r = 403 \/ status r = 404))
    as Hdone.
  { intros code [[Hl Ht] Hs] Hc. rewrite Hs. auto. }
  destruct m; cbn [handle].
  - destruct (do_GET_routes w req s)
      as [[_ ->] | [(_ & _ & ->) | [(_ & _ & ->) | [(f & _ & _ & ->)
         | [(f & _ & _ & _ & ->) | [[_ ->] | [[_ ->] | (_ & _ & ->)]]]]]]];
      intros H;
      try (apply serve_file_framed in H as [Hf [Hs | Hs]];
           [apply (Hdone 200) | apply (Hdone 404)]; now auto);
      try (apply send_error_framed in H; eapply Hdone; [exact H | now auto]);
      try (unfold value_of at 1 in H; cbn [fst] in H;
           apply send_json_framed in H; apply (Hdone 200); now auto).
    inversion H. repeat split; auto. discriminate.
  - destruct (String.eqb (req_path req) "/api/start") eqn:Hstart.
    { apply String.eqb_eq in Hstart. rewrite (do_POST_start w req s Hstart).
      destruct (value_of (request_data w req s)) as [data|e]; [|discriminate].
      destruct (method_get data "id" (PStr "3")) as [source_id|e]; [|discriminate].
      destruct (start_stream w source_id 30 s) as [[[[ok msg]|e] s1] t];
        [|discriminate].
      unfold value_of at 1; cbn [fst]. intros H.
      apply send_json_framed in H. apply (Hdone 200); now auto. }
    destruct (String.eqb (req_path req) "/api/stop") eqn:Hstop.
    { apply String.eqb_eq in Hstop. rewrite (do_POST_stop w req s Hstop).
      unfold value_of at 1; cbn [fst]. intros H.
      apply send_json_framed in H. apply (Hdone 200); now auto. }
    unfold do_POST. rewrite Hstart, Hstop. intros H.
    apply send_error_framed in H. apply (Hdone 404); now auto.
Qed.

Lemma responses_are_framed_witness :
  header {| status := 403;
            headers := [ ("Server", "BaseHTTP/0.6 Python/3.12.0");
                         ("Date", "Wed, 04 Nov 2026 08:00:00 GMT");
                         ("Connection", "close");
                         ("Content-Type", "text/html;charset=utf-8");
                         ("Content-Length", "18") ];
            body := "<h1>Error 403</h1>" |} "Content-Length"
  = Some (Py.str_int (Py.len "<h1>Error 403</h1>")).
Proof.
  apply (responses_are_framed Sample.healthy GET (Sample.get "/hls/../x") idle).
  reflexivity.
Defined.

(** ** The life of a session *)

(** [start_stream] says [ok] exactly when it leaves a session behind. *)
Lemma start_ok_iff_tracked w source_id framerate s ok msg :
  value_of (start_stream w source_id framerate s) = Ret (ok, msg) ->
  ok = match ffmpeg_proc (state_of (start_stream w source_id framerate s)) with
       | Some _ => true
       | None => false
       end.
Proof.
  destruct (state_cases s) as [-> | [p ->]].
  - rewrite start_stream_idle.
    destruct (launch_error w (ffmpeg_argv w source_id framerate));
      [discriminate|].
    unfold polled_run.
    destruct (scan w POLL_ITERATIONS 0); cbn; intros H; now inversion H.
  - rewrite start_stream_running. cbn. intros H; now inversion H.
Qed.

Lemma do_GET_status w req s :
  req_path req = "/api/status" ->
  do_GET w req s
  = (value_of (send_json w (PDict
       [ ("running", PBool (match ffmpeg_proc s with
                            | Some _ => true | None => false end));
         ("ip", PStr (local_ip w));
         ("viewer_url", match ffmpeg_proc s with
                        | Some _ => PStr (viewer_url (local_ip w))
                        | None => PNone
                        end) ]) s),
     s, [EConnect "8.8.8.8" 80]).
Proof.
  intros Hpath. unfold do_GET. rewrite Hpath.
  cbn [String.eqb Ascii.eqb Bool.eqb orb Py.startswith andb].
  unfold bind at 1. rewrite get_local_ip_run. now destruct s as [[p|]].
Qed.

(** The answer to a start and the next status agree.  When POST
    [/api/start] is answered, its [ok] is the [running] that GET
    [/api/status] reports next, and each carries a URL, made of [http://],
    the local address and port 8000, exactly when [ok] holds, else [null]. *)
Theorem start_answer_agrees_with_status
  (w1 w2 : World) (req1 req2 : request) (s : state) (r1 : response) :
  req_path req1 = "/api/start" ->
  req_path req2 = "/api/status" ->
  value_of (do_POST w1 req1 s) = Ret r1 ->
  exists ok msg r2,
    body r1 = json_dumps w1 (PDict
                [ ("ok", PBool ok);
                  ("message", PStr msg);
                  ("url", if ok then PStr ("http://" ++ local_ip w1 ++ ":8000")
                          else PNone);
                  ("ip", PStr (local_ip w1)) ])
    /\ value_of (do_GET w2 req2 (state_of (do_POST w1 req1 s))) = Ret r2
    /\ body r2 = json_dumps w2 (PDict
                   [ ("running", PBool ok);
                     ("ip", PStr (local_ip w2));
                     ("viewer_url",
                      if ok then PStr ("http://" ++ local_ip w2 ++ ":8000")
                      else PNone) ]).
Proof.
  intros Hstart Hstatus. rewrite (do_POST_start w1 req1 s Hstart).
  destruct (value_of (request_data w1 req1 s)) as [data|e]; [|discriminate].
  destruct (method_get data "id" (PStr "3")) as [source_id|e]; [|discriminate].
  pose proof (start_ok_iff_tracked w1 source_id 30 s) as Hok.
  destruct (start_stream w1 source_id 30 s) as [[[[ok msg]|e] s1] t];
    [|discriminate].
  specialize (Hok ok msg eq_refl). unfold state_of in *; cbn [fst snd] in *.
  unfold value_of at 1; cbn [fst]. intros H; inversion H; subst r1; clear H.
  rewrite (do_GET_status w2 req2 s1 Hstatus).
  exists ok, msg. eexists. split; [reflexivity|]. split; [reflexivity|].
  cbn [body value_of fst send_json]. rewrite Hok.
  now destruct (ffmpeg_proc s1).
Qed.

Lemma start_answer_agrees_with_status_witness :
  exists ok msg r2,
    body {| status := 200;
            headers := [ ("Server", "BaseHTTP/0.6 Python/3.12.0");
                         ("Date", "Wed, 04 Nov 2026 08:00:00 GMT");
                         ("Content-Type", "application/json");
                         ("Content-Length",
                          Py.str_int (Py.len (Sample.dumps (PDict
                            [ ("ok", PBool false);
                              ("message", PStr MSG_PERMISSION_HINT);
                              ("url", PNone);
                              ("ip", PStr "192.168.1.20") ])))) ];
            body := Sample.dumps (PDict
                      [ ("ok", PBool false);
                        ("message", PStr MSG_PERMISSION_HINT);
                        ("url", PNone);
                        ("ip", PStr "192.168.1.20") ]) |}
    = json_dumps Sample.denied (PDict
        [ ("ok", PBool ok);
          ("message", PStr msg);
          ("url", if ok then PStr ("http://" ++ local_ip Sample.denied ++ ":8000")
                  else PNone);
          ("ip", PStr (local_ip Sample.denied)) ])
    /\ value_of (do_GET Sample.healthy (Sample.get "/api/status")
                   (state_of (do_POST Sample.denied
                                (Sample.post "/api/start" "2" "{}") idle))) = Ret r2
    /\ body r2 = json_dumps Sample.healthy (PDict
                   [ ("running", PBool ok);
                     ("ip", PStr (local_ip Sample.healthy));
                     ("viewer_url",
                      if ok then PStr ("http://" ++ local_ip Sample.healthy ++ ":8000")
                      else PNone) ]).
Proof.
  apply (start_answer_agrees_with_status Sample.denied Sample.healthy
           (Sample.post "/api/start" "2" "{}") (Sample.get "/api/status") idle);
    reflexivity.
Defined.

(** [start_stream] leaves no session unless it says [ok]. *)
Lemma start_stream_raise_idle w source_id framerate s e :
  value_of (start_stream w source_id framerate s) = Raise e ->
  state_of (start_stream w source_id framerate s) = idle.
Proof.
  destruct (state_cases s) as [-> | [p ->]].
  - rewrite start_stream_idle.
    destruct (launch_error w (ffmpeg_argv w source_id framerate));
      [reflexivity|].
    unfold polled_run. destruct (scan w POLL_ITERATIONS 0); discriminate.
  - rewrite start_stream_running. discriminate.
Qed.

Lemma start_stream_fresh w source_id framerate :
  fresh_start w source_id framerate (start_stream w source_id framerate idle).
Proof.
  unfold fresh_start.
  pose proof (start_stream_launches w source_id framerate idle) as Hl.
  rewrite start_stream_idle in *. cbn [ffmpeg_proc idle] in Hl.
  destruct (launch_error w (ffmpeg_argv w source_id framerate));
    [reflexivity|].
  split; [exact Hl|].
  unfold polled_run, launch_events, trace_of.
  destruct (scan w POLL_ITERATIONS 0), (hls_dir_exists w); cbn;
    eexists; reflexivity.
Qed.

(** A session can always be started again.  After a stop, after a start
    that answered a failure and after a start that raised, the next start
    begins afresh: it looks for the segment directory, removes it if it is
    there, makes it, and launches exactly one process; or, when the removal,
    the making or the launch raises, it raises the same with no process
    launched.  After a start that succeeded, the next start does nothing. *)
Theorem session_restarts_after_stop_or_failure
  (w1 w2 : World) (id1 id2 : pyval) (rate1 rate2 : Z) (s : state) :
  fresh_start w2 id2 rate2
    (start_stream w2 id2 rate2 (state_of (stop_stream w1 s)))
  /\ (forall msg,
        value_of (start_stream w1 id1 rate1 s) = Ret (false, msg) ->
        fresh_start w2 id2 rate2
          (start_stream w2 id2 rate2 (state_of (start_stream w1 id1 rate1 s))))
  /\ (forall e,
        value_of (start_stream w1 id1 rate1 s) = Raise e ->
        fresh_start w2 id2 rate2
          (start_stream w2 id2 rate2 (state_of (start_stream w1 id1 rate1 s))))
  /\ (forall msg,
        value_of (start_stream w1 id1 rate1 s) = Ret (true, msg) ->
        start_stream w2 id2 rate2 (state_of (start_stream w1 id1 rate1 s))
        = (Ret (true, MSG_ALREADY_RUNNING),
           state_of (start_stream w1 id1 rate1 s), [])).
Proof.
  split; [|split; [|split]].
  - destruct (state_cases s) as [-> | [p ->]];
      rewrite ?stop_stream_idle, ?stop_stream_running;
      apply start_stream_fresh.
  - intros msg Hfail.
    pose proof (start_ok_iff_tracked w1 id1 rate1 s false msg Hfail) as Hok.
    destruct (start_stream w1 id1 rate1 s) as [[r s1] t];
      unfold state_of in *; cbn [fst snd] in *.
    destruct s1 as [[p|]]; [discriminate Hok|]. apply start_stream_fresh.
  - intros e He. rewrite (start_stream_raise_idle w1 id1 rate1 s e He).
    apply start_stream_fresh.
  - intros msg Hok.
    pose proof (start_ok_iff_tracked w1 id1 rate1 s true msg Hok) as Ht.
    destruct (start_stream w1 id1 rate1 s) as [[r s1] t];
      unfold state_of in *; cbn [fst snd] in *.
    destruct s1 as [[p|]]; [reflexivity | discriminate Ht].
Qed.

Lemma session_restarts_after_stop_or_failure_witness :
  fresh_start Sample.healthy (PStr "1") 30
    (start_stream Sample.healthy (PStr "1") 30
       (state_of (start_stream Sample.silent (PStr "1") 30 idle))).
Proof.
  apply (proj1 (proj2 (session_restarts_after_stop_or_failure
                         Sample.silent Sample.healthy (PStr "1") (PStr "1") 30 30 idle))
           MSG_NO_SEGMENTS).
  vm_compute. reflexivity.
Defined.

(** ** What a start logs *)









(** ** The body of a start request *)

(** Without a [Content-Length], or with one that is 0, the body is neither
    read nor decoded: the request means [{}], so source 3, whatever bytes
    follow the headers and whatever the decoder would say of them.  From the
    idle state the process for source 3 is launched, unless the segment
    directory or the host stops the launch. *)
Theorem start_without_length_ignores_the_body
  (w : World) (req : request) (s : state) :
  req_path req = "/api/start" ->
  headers_get (req_headers req) "Content-Length" = None
  \/ (exists text, headers_get (req_headers req) "Content-Length" = Some text
                   /\ Py.int_of_str text = Some 0) ->
  request_data w req s = (Ret (PDict []), s, [])
  /\ launches (trace_of (do_POST w req s))
     = match ffmpeg_proc s with
       | None =>
           match launch_error w (ffmpeg_argv w (PStr "3") 30) with
           | None => [(ffmpeg_argv w (PStr "3") 30, spawn_pid w)]
           | Some _ => []
           end
       | Some _ => []
       end.
Proof.
  intros Hpath Hlen.
  assert (request_data w req s = (Ret (PDict []), s, [])) as Hdata.
  { rewrite request_data_run.
    destruct Hlen as [-> | (text & -> & ->)]; reflexivity. }
  split; [exact Hdata|].
  now rewrite (do_POST_start_launches w req s Hpath), Hdata.
Qed.

Lemma start_without_length_ignores_the_body_witness :
  request_data Sample.healthy
    {| req_path := "/api/start"; req_headers := [("Host", "localhost:8000")];
       req_rfile := "[]" |} idle
  = (Ret (PDict []), idle, []).
Proof.
  apply (start_without_length_ignores_the_body Sample.healthy
           {| req_path := "/api/start"; req_headers := [("Host", "localhost:8000")];
              req_rfile := "[]" |} idle eq_refl).
  left. reflexivity.
Defined.

Lemma has_nul_app a b : Py.has_nul (a ++ b) = Py.has_nul a || Py.has_nul b.
Proof.
  induction a as [|c a IH]; [reflexivity|].
  cbn [append Py.has_nul]. now rewrite IH, orb_assoc.
Qed.

Lemma nul_id_stops_the_launch w id rate :
  Py.has_nul id = true -> existsb Py.has_nul (ffmpeg_argv w (PStr id) rate) = true.
Proof.
  intros H. unfold ffmpeg_argv. cbn [existsb format_value].
  rewrite has_nul_app, H. cbn [orb]. now rewrite !orb_true_r.
Qed.

(** The source a client names goes to ffmpeg as one argument.  When the body
    is an object whose [id] is a string, the process launched from the idle
    state gets that string followed by [:none] after [-i]; the argument
    vector has 28 strings whatever the [id], and every other one is the same
    for all sources.  The process is launched unless the segment directory
    or the host stops the launch; an [id] that holds NUL stops it: with the
    directory wiped and made anew, [Popen] raises [ValueError] out of the
    handler, and nothing is executed. *)
Theorem start_request_passes_the_id_as_one_argument
  (w : World) (req : request) (s : state)
  (items : list (string * pyval)) (id : string) :
  req_path req = "/api/start" ->
  value_of (request_data w req s) = Ret (PDict items) ->
  dict_get items "id" (PStr "3") = PStr id ->
  ffmpeg_proc s = None ->
  launches (trace_of (do_POST w req s))
  = match launch_error w (ffmpeg_argv w (PStr id) 30) with
    | None => [(ffmpeg_argv w (PStr id) 30, spawn_pid w)]
    | Some _ => []
    end
  /\ nth_error (ffmpeg_argv w (PStr id) 30) 7 = Some "-i"
  /\ nth_error (ffmpeg_argv w (PStr id) 30) 8 = Some (id ++ ":none")
  /\ List.length (ffmpeg_argv w (PStr id) 30) = 28%nat
  /\ (forall other i,
        i <> 8%nat ->
        nth_error (ffmpeg_argv w (PStr id) 30) i
        = nth_error (ffmpeg_argv w other 30) i)
  /\ (Py.has_nul id = true ->
      launch_error w (ffmpeg_argv w (PStr id) 30) <> None
      /\ ((if hls_dir_exists w then rmtree_error w else None) = None ->
          makedirs_error w = None ->
          do_POST w req s
          = (Raise ValueError, s,
             EExists HLS_DIR
             :: (if hls_dir_exists w then [ERmtree HLS_DIR] else [])
             ++ [EMakedirs HLS_DIR])%list)).
Proof.
  intros Hpath Hdata Hid Hs.
  split; [now rewrite (do_POST_start_launches w req s Hpath), Hdata, Hs, Hid|].
  do 3 (split; [reflexivity|]).
  split.
  { intros other i Hi.
    do 8 (destruct i as [|i]; [reflexivity|]).
    destruct i as [|i]; [now contradiction Hi | reflexivity]. }
  intros Hnul. pose proof (nul_id_stops_the_launch w id 30 Hnul) as Hargv.
  split.
  { unfold launch_error. rewrite Hargv.
    destruct (if hls_dir_exists w then rmtree_error w else None); [discriminate|].
    destruct (makedirs_error w); discriminate. }
  intros Hrm Hmk.
  rewrite (do_POST_start w req s Hpath), Hdata. cbn [method_get]. rewrite Hid.
  destruct s as [[p|]]; [discriminate Hs|]. fold idle.
  rewrite (start_stream_refused w (PStr id) 30 ValueError).
  - unfold failed_launch_events.
    destruct (hls_dir_exists w); [rewrite Hrm|]; reflexivity.
  - unfold launch_error. now rewrite Hrm, Hmk, Hargv.
Qed.

Lemma start_request_passes_the_id_as_one_argument_witness :
  launches (trace_of (do_POST Sample.healthy
                        (Sample.post "/api/start" "11"
                           ("{" ++ Sample.quote ++ "id" ++ Sample.quote ++ ": "
                            ++ Sample.quote ++ "1" ++ Sample.quote ++ "}")) idle))
  = [(ffmpeg_argv Sample.healthy (PStr "1") 30, spawn_pid Sample.healthy)].
Proof.
  apply (start_request_passes_the_id_as_one_argument Sample.healthy
           (Sample.post "/api/start" "11"
              ("{" ++ Sample.quote ++ "id" ++ Sample.quote ++ ": "
               ++ Sample.quote ++ "1" ++ Sample.quote ++ "}")) idle
           [("id", PStr "1")] "1"); reflexivity.
Defined.

(** ** Unknown routes *)

(** A path that is no route of the method is answered 404, with no effect on
    the world and none on the session: so a GET of [/api/start] or
    [/api/stop] starts and stops nothing, and a POST anywhere but there
    neither. *)
Theorem unknown_routes_are_not_found
  (w : World) (m : method) (req : request) (s : state) :
  match m with
  | GET => ~ In (req_path req) GET_ROUTES
           /\ Py.startswith "/hls/" (req_path req) = false
  | POST => ~ In (req_path req) POST_ROUTES
  end ->
  exists r, handle w m req s = (Ret r, s, []) /\ status r = 404.
Proof.
  destruct m; cbn [handle].
  - intros [Hroutes Hhls]. unfold do_GET. rewrite Hhls.
    unfold GET_ROUTES in Hroutes. simpl in Hroutes.
    destruct (String.eqb_spec (req_path req) "/project"); [intuition congruence|].
    destruct (String.eqb_spec (req_path req) "/"); [intuition congruence|].
    destruct (String.eqb_spec (req_path req) "/index.html"); [intuition congruence|].
    destruct (String.eqb_spec (req_path req) "/api/status"); [intuition congruence|].
    destruct (String.eqb_spec (req_path req) "/api/sources"); [intuition congruence|].
    cbn [orb]. eexists. split; reflexivity.
  - intros Hroutes. unfold do_POST.
    unfold POST_ROUTES in Hroutes. simpl in Hroutes.
    destruct (String.eqb_spec (req_path req) "/api/start"); [intuition congruence|].
    destruct (String.eqb_spec (req_path req) "/api/stop"); [intuition congruence|].
    eexists. split; reflexivity.
Qed.

Lemma unknown_routes_are_not_found_witness :
  exists r,
    handle Sample.healthy GET (Sample.get "/api/stop") (running 7)
    = (Ret r, running 7, []) /\ status r = 404.
Proof.
  apply (unknown_routes_are_not_found Sample.healthy GET
           (Sample.get "/api/stop") (running 7)).
  split; [|reflexivity].
  simpl. intros [H | [H | [H | [H | [H | []]]]]]; discriminate H.
Defined.

(** ** Shutdown *)

Lemma on_SIGINT_run w s :
  on_SIGINT w s
  = (Ret 0, idle,
     EPrint (newline ++ "Stopped.")
     :: match ffmpeg_proc s with
        | Some p => [EKill p; EWait p 2]
        | None => []
        end).
Proof.
  unfold on_SIGINT, cleanup, bind, emit, ret.
  destruct (state_cases s) as [-> | [p ->]];
    now rewrite ?stop_stream_idle, ?stop_stream_running.
Qed.

Lemma on_SIGTERM_run w s :
  on_SIGTERM w s
  = (Ret 0, idle,
     match ffmpeg_proc s with
     | Some p => [EKill p; EWait p 2]
     | None => []
     end).
Proof.
  unfold on_SIGTERM, cleanup, bind, ret.
  destruct (state_cases s) as [-> | [p ->]];
    now rewrite ?stop_stream_idle, ?stop_stream_running.
Qed.

Lemma kill_ends_tracked_session s live :
  tracked s live ->
  sessions_after
    match ffmpeg_proc s with
    | Some p => [EKill p; EWait p 2]
    | None => []
    end live = [].
Proof.
  intros [-> | (p & -> & ->)]; [now destruct (ffmpeg_proc s)|].
  cbn [sessions_after step_sessions]. apply remove_only.
Qed.

(** No capture process outlives the server.  When SIGINT or SIGTERM arrives
    after any sequence of requests, its handler kills the session the handle
    holds, once, clears the handle and exits with status 0: no process the
    server launched is left that was not disposed of. *)
Theorem shutdown_signal_ends_the_session
  (reqs : list (World * method * request)) (w : World) :
  (value_of (on_SIGINT w (fst (serve reqs idle))) = Ret 0
   /\ ffmpeg_proc (state_of (on_SIGINT w (fst (serve reqs idle)))) = None
   /\ sessions_after
        (events_of (snd (serve reqs idle))
         ++ trace_of (on_SIGINT w (fst (serve reqs idle)))) [] = []
   /\ (List.length (kills (trace_of (on_SIGINT w (fst (serve reqs idle))))) <= 1)%nat)
  /\ (value_of (on_SIGTERM w (fst (serve reqs idle))) = Ret 0
      /\ ffmpeg_proc (state_of (on_SIGTERM w (fst (serve reqs idle)))) = None
      /\ sessions_after
           (events_of (snd (serve reqs idle))
            ++ trace_of (on_SIGTERM w (fst (serve reqs idle)))) [] = []
      /\ (List.length (kills (trace_of (on_SIGTERM w (fst (serve reqs idle))))) <= 1)%nat).
Proof.
  destruct (serve_sessions reqs idle [] (tracked_none idle)) as [_ Ht].
  rewrite on_SIGINT_run, on_SIGTERM_run. unfold value_of, state_of, trace_of.
  cbn [fst snd]. rewrite !sessions_after_app.
  cbn [sessions_after step_sessions].
  rewrite (kill_ends_tracked_session _ _ Ht).
  repeat split; destruct (ffmpeg_proc (fst (serve reqs idle))); simpl; lia.
Qed.
